(** * hangups.auth: Google login through OAuth 2.0

    A shallow embedding of [hangups/auth.py].  The module talks to three
    collaborators that are not part of it: the HTTP transport (requests and
    mechanicalsoup), the file that caches the refresh token, and the
    callbacks that prompt for credentials.  They are modelled as an
    environment [Env] that answers every call, together with a [World] that
    holds the mutable objects of one run (the [requests.Session], the files)
    and the history of calls made so far.  Python exceptions are values of
    type [exn]; code that may raise runs in the state-and-exception monad
    [M].  Calls to [logger] have no effect on the control flow and are left
    out.

    The libraries are modelled as far as the module uses them: a file is a
    slot that holds the string written to it; a CSS selector is decided on
    an element and its descendants; the cookie jar keeps one cookie per name
    and domain, and a lookup by name gives the first cookie of that name. *)

From Stdlib Require Import Ascii.
From stdpp Require Import gmap strings list pretty.

Set Warnings "-register-all".

(** ** Python values *)

(** What [Response.json()] returns: the Python objects a JSON document
    decodes to.  Numbers are kept as integers. *)
Inductive json :=
| JNull
| JBool (b : bool)
| JNum (n : Z)
| JStr (s : string)
| JList (l : list json)
| JDict (d : gmap string json).

(** The exceptions that the module raises or lets through. *)
Inductive exn :=
| GoogleAuthError (msg : string)
| RequestException (msg : string)
| KeyError (key : string)
| IndexError
| TypeError (msg : string)
| JSONDecodeError.

Inductive Result (A : Type) :=
| Ok (a : A)
| Raise (e : exn).
Arguments Ok {A} a.
Arguments Raise {A} e.

(** ** State-and-exception monad

    The state survives a raised exception: what a function has mutated
    before it raises stays mutated. *)
Definition M (S A : Type) : Type := S -> Result A * S.

Definition ret {S A} (a : A) : M S A := fun s => (Ok a, s).

Definition raise {S A} (e : exn) : M S A := fun s => (Raise e, s).

Definition bind {S A B} (m : M S A) (k : A -> M S B) : M S B :=
  fun s =>
    match m s with
    | (Ok a, s') => k a s'
    | (Raise e, s') => (Raise e, s')
    end.

Notation "x <~ m ;; k" := (bind m (fun x => k))
  (at level 100, m at next level, right associativity).

(** [try: m  except <the exceptions h accepts>: h e  else: k].  An exception
    raised by the handler or by the [else] block is not handled here. *)
Definition try_except_else {S A B}
    (m : M S A) (h : exn -> option (M S B)) (k : A -> M S B) : M S B :=
  fun s =>
    match m s with
    | (Ok a, s') => k a s'
    | (Raise e, s') =>
        match h e with
        | Some handler => handler s'
        | None => (Raise e, s')
        end
    end.

Definition try_except {S A} (m : M S A) (h : exn -> option (M S A)) : M S A :=
  try_except_else m h ret.

(** ** HTML documents *)

(** An element of a parsed page: name, attributes (a dict, in insertion
    order) and children. *)
Inductive Tag :=
| mkTag (name : string) (attrs : list (string * string)) (children : list Tag).

Definition tag_name (t : Tag) : string := let 'mkTag n _ _ := t in n.
Definition tag_attrs (t : Tag) : list (string * string) := let 'mkTag _ a _ := t in a.
Definition tag_children (t : Tag) : list Tag := let 'mkTag _ _ c := t in c.

(** [d[key] = value] on a dict kept as an association list. *)
Fixpoint dict_set (key value : string) (d : list (string * string))
    : list (string * string) :=
  match d with
  | [] => [(key, value)]
  | (k, v) :: d' =>
      if String.eqb k key then (k, value) :: d' else (k, v) :: dict_set key value d'
  end.

Fixpoint dict_get (key : string) (d : list (string * string)) : option string :=
  match d with
  | [] => None
  | (k, v) :: d' => if String.eqb k key then Some v else dict_get key d'
  end.

(** [tag[key] = value] *)
Definition tag_setitem (key value : string) (t : Tag) : Tag :=
  let 'mkTag n a c := t in mkTag n (dict_set key value a) c.

(** An element is addressed by the child indices that lead to it from the
    root: the element objects that [select] returns are the nodes of the
    page itself, not copies, so writing to one writes to the page. *)
Definition path := list nat.

Fixpoint subtree (p : path) (t : Tag) : option Tag :=
  match p with
  | [] => Some t
  | i :: p' =>
      match tag_children t !! i with
      | Some c => subtree p' c
      | None => None
      end
  end.

Fixpoint update_at (f : Tag -> Tag) (p : path) (t : Tag) : Tag :=
  match p with
  | [] => f t
  | i :: p' =>
      let 'mkTag n a c := t in mkTag n a (alter (update_at f p') i c)
  end.

(** The page without its [value] attributes: two pages with the same image
    differ in the values of their fields at most. *)
Fixpoint erase_values (t : Tag) : Tag :=
  let 'mkTag n a c := t in
  mkTag n (List.filter (fun kv => negb (String.eqb (fst kv) "value")) a)
        (map erase_values c).

(** ** HTTP *)

Record Cookie := {
  cookie_name : string;
  cookie_value : string;
  cookie_domain : string;
}.

(** [requests.Session]: the headers sent with every request and the cookie
    jar. *)
Record Session := {
  headers : list (string * string);
  cookies : list Cookie;
}.

Inductive Request :=
| SessionPost (url : string) (data : list (string * string))
| SessionGet (url : string) (hdrs : list (string * string))
| BrowserGet (url : string)
| BrowserSubmit (form : Tag) (url : string).

(** A response, as the module reads it: [r.json()] is [body_json] ([None]
    when the body is not JSON), [r.soup] is [soup], and [set_cookies] are the
    cookies that the exchange stores in the session's jar. *)
Record Response := {
  status_code : Z;
  reason : string;
  url : string;
  text : string;
  body_json : option json;
  soup : Tag;
  set_cookies : list Cookie;
}.

Inductive HttpOutcome :=
| ConnectionError (msg : string)
| Reply (r : Response).

(** ** Calls to the collaborators, as they are recorded *)
Inductive Event :=
| EvCacheGet (filename : string)
| EvCacheSet (filename : string) (token : json)
| EvGetEmail
| EvGetPassword
| EvGetVerificationCode
| EvRequest (req : Request).

(** The mutable objects of one run and its history. *)
Record World := {
  files : gmap string string;
  session : Session;
  trace : list Event;
}.

(** What the module cannot decide: how the network answers a request
    (given all that happened before), and which files cannot be opened for
    reading or for writing. *)
Record Env := {
  http : list Event -> Session -> Request -> HttpOutcome;
  read_fault : string -> bool;
  write_fault : string -> bool;
}.

(** What the Python runtime and the libraries provide: [repr] (the [{!r}]
    of [str.format]), [str] of a value that is not a string, the test
    whether an element matches a CSS selector, and the user agent, built
    from the package version and the platform. *)
Record Runtime := {
  repr : json -> string;
  str_other : json -> string;
  selector_matches : string -> Tag -> bool;
  USER_AGENT : string;
}.

(** ** Constants of the module *)

Definition OAUTH2_CLIENT_ID : string := "936475272427.apps.googleusercontent.com".
Definition OAUTH2_CLIENT_SECRET : string := "KWsJlkaMn1jGLxQpWxMnOox-".
Definition OAUTH2_SCOPES : list string :=
  [ "https://www.google.com/accounts/OAuthLogin";
    "https://www.googleapis.com/auth/userinfo.email" ].
(** [urlencode] of the scopes joined by [+] (kept unescaped) and of the
    client id. *)
Definition OAUTH2_LOGIN_URL : string :=
  "https://accounts.google.com/o/oauth2/programmatic_auth?" ++
  "scope=https%3A%2F%2Fwww.google.com%2Faccounts%2FOAuthLogin" ++
  "+https%3A%2F%2Fwww.googleapis.com%2Fauth%2Fuserinfo.email" ++
  "&client_id=" ++ OAUTH2_CLIENT_ID.
Definition OAUTH2_TOKEN_REQUEST_URL : string := "https://accounts.google.com/o/oauth2/token".
Definition FORM_SELECTOR : string := "#gaia_loginform".
Definition EMAIL_SELECTOR : string := "#Email".
Definition PASSWORD_SELECTOR : string := "#Passwd".
Definition VERIFICATION_FORM_SELECTOR : string := "#challenge".
Definition VERIFICATION_CODE_SELECTOR : string := "#totpPin".

(** ** Operations of the Python runtime and of the libraries *)

(** [needle in haystack] on strings. *)
Fixpoint str_contains (needle haystack : string) : bool :=
  if String.prefix needle haystack then true
  else match haystack with
       | EmptyString => false
       | String _ rest => str_contains needle rest
       end.

(** [key in obj]: a key of a dict, an element of a list, a substring of a
    string; other objects are not iterable. *)
Definition py_contains {S} (key : string) (obj : json) : M S bool :=
  match obj with
  | JDict d => ret (match d !! key with Some _ => true | None => false end)
  | JList l =>
      ret (existsb (fun v => match v with JStr s => String.eqb s key | _ => false end) l)
  | JStr s => ret (str_contains key s)
  | _ => raise (TypeError "argument is not iterable")
  end.

(** [obj[key]] for a string [key]. *)
Definition py_getitem {S} (obj : json) (key : string) : M S json :=
  match obj with
  | JDict d =>
      match d !! key with
      | Some v => ret v
      | None => raise (KeyError key)
      end
  | JList _ | JStr _ => raise (TypeError "indices must be integers")
  | _ => raise (TypeError "object is not subscriptable")
  end.

(** [Response.raise_for_status]: the message is empty unless the code is a
    4xx or a 5xx, and a message that is not empty is raised as an
    [HTTPError], which is a [RequestException]. *)
Definition http_error_msg (r : Response) : string :=
  if bool_decide (400 ≤ status_code r < 500)%Z then
    pretty (status_code r) ++ " Client Error: " ++ reason r ++ " for url: " ++ url r
  else if bool_decide (500 ≤ status_code r < 600)%Z then
    pretty (status_code r) ++ " Server Error: " ++ reason r ++ " for url: " ++ url r
  else "".

Definition is_http_error (r : Response) : bool :=
  bool_decide (400 ≤ status_code r < 600)%Z.

Definition raise_for_status {S} (r : Response) : M S unit :=
  if is_http_error r
  then raise (RequestException (http_error_msg r))
  else ret tt.

(** [Response.json] *)
Definition Response_json {S} (r : Response) : M S json :=
  match body_json r with
  | Some v => ret v
  | None => raise JSONDecodeError
  end.

(** The jar keeps one cookie per name and domain. *)
Fixpoint set_cookie (c : Cookie) (jar : list Cookie) : list Cookie :=
  match jar with
  | [] => [c]
  | c' :: jar' =>
      if String.eqb (cookie_name c') (cookie_name c)
         && String.eqb (cookie_domain c') (cookie_domain c)
      then c :: jar'
      else c' :: set_cookie c jar'
  end.

Definition store_cookies (cs jar : list Cookie) : list Cookie :=
  foldl (fun j c => set_cookie c j) jar cs.

(** [jar[name]] *)
Fixpoint jar_getitem (name : string) (jar : list Cookie) : option string :=
  match jar with
  | [] => None
  | c :: jar' =>
      if String.eqb (cookie_name c) name then Some (cookie_value c)
      else jar_getitem name jar'
  end.

(** [jar.get_dict(domain=domain)] *)
Definition get_dict (domain : string) (jar : list Cookie) : gmap string string :=
  foldl (fun d c =>
           if String.eqb (cookie_domain c) domain
           then <[cookie_name c := cookie_value c]> d else d)
        ∅ jar.

(** ** World updates *)

Definition log (ev : Event) (w : World) : World :=
  {| files := files w; session := session w; trace := trace w ++ [ev] |}.

Definition with_files (f : gmap string string) (w : World) : World :=
  {| files := f; session := session w; trace := trace w |}.

Definition with_session (s : Session) (w : World) : World :=
  {| files := files w; session := s; trace := trace w |}.

(** The world after the request [req] has been answered by [r]. *)
Definition received (req : Request) (r : Response) (w : World) : World :=
  with_session {| headers := headers (session w);
                  cookies := store_cookies (set_cookies r) (cookies (session w)) |}
               (log (EvRequest req) w).

(** ** CredentialsPrompt: the callbacks that ask for the credentials *)

Record CredentialsPrompt := {
  email : string;
  password : string;
  verification_code : string;
}.

Definition get_email (self : CredentialsPrompt) : M World string :=
  fun w => (Ok (email self), log EvGetEmail w).

Definition get_password (self : CredentialsPrompt) : M World string :=
  fun w => (Ok (password self), log EvGetPassword w).

Definition get_verification_code (self : CredentialsPrompt) : M World string :=
  fun w => (Ok (verification_code self), log EvGetVerificationCode w).

Record RefreshTokenCache := { _filename : string }.

(** The page that the browser is on. *)
Record Browser := { _page : Response }.

Definition with_soup (t : Tag) (r : Response) : Response :=
  {| status_code := status_code r; reason := reason r; url := url r;
     text := text r; body_json := body_json r; soup := t;
     set_cookies := set_cookies r |}.

(** How often a kind of call occurs in a history. *)
Fixpoint count (P : Event -> bool) (evs : list Event) : nat :=
  match evs with
  | [] => 0
  | ev :: evs' => (if P ev then 1 else 0) + count P evs'
  end.

Definition is_login_page_request (ev : Event) : bool :=
  match ev with
  | EvRequest (BrowserGet location) => String.eqb location OAUTH2_LOGIN_URL
  | _ => false
  end.

Definition is_get_email (ev : Event) : bool :=
  match ev with EvGetEmail => true | _ => false end.

Definition is_get_password (ev : Event) : bool :=
  match ev with EvGetPassword => true | _ => false end.

Definition is_code_grant (ev : Event) : bool :=
  match ev with
  | EvRequest (SessionPost location data) =>
      String.eqb location OAUTH2_TOKEN_REQUEST_URL
      && match dict_get "grant_type" data with
         | Some grant => String.eqb grant "authorization_code"
         | None => false
         end
  | _ => false
  end.

Definition is_cache_set (ev : Event) : bool :=
  match ev with EvCacheSet _ _ => true | _ => false end.

(** The calls to the credential source and the requests of the browser. *)
Definition is_credential_event (ev : Event) : bool :=
  match ev with
  | EvGetEmail | EvGetPassword | EvGetVerificationCode => true
  | _ => false
  end.

Definition is_browser_event (ev : Event) : bool :=
  match ev with
  | EvRequest (BrowserGet _) | EvRequest (BrowserSubmit _ _) => true
  | _ => false
  end.

Section Auth.

Variable rt : Runtime.
Variable env : Env.

(** [str(v)], as [str.format] inserts it. *)
Definition py_str (v : json) : string :=
  match v with
  | JStr s => s
  | _ => str_other rt v
  end.

(** [tag.select(selector)]: the proper descendants of [t] that match, in
    document order. *)
Fixpoint select (selector : string) (t : Tag) : list path :=
  let 'mkTag _ _ cs := t in
  (fix go (i : nat) (cs : list Tag) : list path :=
     match cs with
     | [] => []
     | c :: cs' =>
         (if selector_matches rt selector c then [[i]] else [])
         ++ map (cons i) (select selector c)
         ++ go (S i) cs'
     end) 0 cs.

(** [select] from the element at [p] of the page [root]. *)
Definition select_in (selector : string) (p : path) (root : Tag) : list path :=
  match subtree p root with
  | Some t => map (app p) (select selector t)
  | None => []
  end.

(** One request through the session: it is recorded, the network answers,
    and the cookies of the answer go to the jar. *)
Definition send (req : Request) : M World Response :=
  fun w =>
    match http env (trace w) (session w) req with
    | ConnectionError msg => (Raise (RequestException msg), log (EvRequest req) w)
    | Reply r => (Ok r, received req r w)
    end.

(** ** RefreshTokenCache *)

(** A file that cannot be opened or does not exist raises [IOError]; the
    method then ends without a [return], which gives [None]. *)
Definition RefreshTokenCache_get (self : RefreshTokenCache) : M World (option string) :=
  fun w =>
    let w1 := log (EvCacheGet (_filename self)) w in
    if read_fault env (_filename self) then (Ok None, w1)
    else match files w !! _filename self with
         | Some content => (Ok (Some content), w1)
         | None => (Ok None, w1)
         end.

(** [open(filename, 'w')] raises [IOError] when the file cannot be opened,
    and leaves it as it was; otherwise it empties the file, and [f.write]
    accepts a string only. *)
Definition RefreshTokenCache_set (self : RefreshTokenCache) (refresh_token : json)
    : M World json :=
  fun w =>
    let w1 := log (EvCacheSet (_filename self) refresh_token) w in
    if write_fault env (_filename self) then (Ok refresh_token, w1)
    else match refresh_token with
         | JStr s => (Ok refresh_token, with_files (<[_filename self := s]> (files w1)) w1)
         | _ =>
             (Raise (TypeError "write() argument must be str"),
              with_files (<[_filename self := ""]> (files w1)) w1)
         end.

(** ** Browser *)

(** [l[0]] *)
Definition first_item {S A} (l : list A) : M S A :=
  match l with
  | x :: _ => ret x
  | [] => raise IndexError
  end.

Definition on_RequestException {S A} (prefix : string) (e : exn) : option (M S A) :=
  match e with
  | RequestException msg => Some (raise (GoogleAuthError (prefix ++ msg)))
  | _ => None
  end.

(** A method of [Browser] runs on the object and on the world. *)
Definition lift {A} (m : M World A) : M (Browser * World) A :=
  fun '(b, w) => let '(r, w') := m w in (r, (b, w')).

Definition get_page : M (Browser * World) Response :=
  fun '(b, w) => (Ok (_page b), (b, w)).

Definition set_page (page : Response) : M (Browser * World) unit :=
  fun '(_, w) => (Ok tt, ({| _page := page |}, w)).

(** The body of a function that holds the browser [b] in a local variable. *)
Definition with_browser {A} (b : Browser) (m : M (Browser * World) A) : M World A :=
  fun w => let '(r, (_, w')) := m (b, w) in (r, w').

Definition Browser_init (url : string) : M World Browser :=
  try_except
    (page <~ send (BrowserGet url);;
     _ <~ raise_for_status page;;
     ret {| _page := page |})
    (on_RequestException "Failed to load form: ").

Definition Browser_has_form (form_selector : string) : M (Browser * World) bool :=
  page <~ get_page;;
  ret (0 <? length (select form_selector (soup page))).

(** The loop of [submit_form] over [input_dict.items()]:
    [form.select(selector)[0]['value'] = value] writes into the current
    page, of which [form] is a part. *)
Fixpoint fill_inputs (form : path) (items : list (string * string))
    : M (Browser * World) unit :=
  match items with
  | [] => ret tt
  | (selector, value) :: rest =>
      _ <~ try_except
             (page <~ get_page;;
              input <~ first_item (select_in selector form (soup page));;
              set_page (with_soup (update_at (tag_setitem "value" value) input (soup page)) page))
             (fun e => match e with
                       | IndexError =>
                           Some (raise (GoogleAuthError
                             ("Failed to find input " ++ repr rt (JStr selector) ++ " in form")))
                       | _ => None
                       end);;
      fill_inputs form rest
  end.

Definition Browser_submit_form (form_selector : string) (input_dict : list (string * string))
    : M (Browser * World) unit :=
  form <~ try_except
            (page <~ get_page;;
             first_item (select form_selector (soup page)))
            (fun e => match e with
                      | IndexError =>
                          Some (raise (GoogleAuthError
                            ("Failed to find form " ++ repr rt (JStr form_selector) ++ " in page")))
                      | _ => None
                      end);;
  _ <~ fill_inputs form input_dict;;
  try_except
    (page <~ get_page;;
     page' <~ lift (send (BrowserSubmit (default (soup page) (subtree form (soup page)))
                                        (url page)));;
     _ <~ set_page page';;
     raise_for_status page')
    (on_RequestException "Failed to submit form: ").

Definition Browser_get_cookie (name : string) : M (Browser * World) string :=
  fun '(b, w) =>
    match jar_getitem name (cookies (session w)) with
    | Some v => (Ok v, (b, w))
    | None => (Raise (KeyError name), (b, w))
    end.

(** ** The authorization code, through the login forms *)

Definition _get_authorization_code (credentials_prompt : CredentialsPrompt)
    : M World string :=
  browser <~ Browser_init OAUTH2_LOGIN_URL;;
  with_browser browser
    (email <~ lift (get_email credentials_prompt);;
     _ <~ Browser_submit_form FORM_SELECTOR [(EMAIL_SELECTOR, email)];;
     password <~ lift (get_password credentials_prompt);;
     _ <~ Browser_submit_form FORM_SELECTOR [(PASSWORD_SELECTOR, password)];;
     has_verification <~ Browser_has_form VERIFICATION_FORM_SELECTOR;;
     _ <~ (if has_verification : bool then
             verfification_code <~ lift (get_verification_code credentials_prompt);;
             Browser_submit_form VERIFICATION_FORM_SELECTOR
               [(VERIFICATION_CODE_SELECTOR, verfification_code)]
           else ret tt);;
     try_except
       (Browser_get_cookie "oauth_code")
       (fun e => match e with
                 | KeyError _ => Some (raise (GoogleAuthError "Authorization code cookie not found"))
                 | _ => None
                 end)).

(** ** Token requests *)

Definition _make_token_request (token_request_data : list (string * string))
    : M World json :=
  try_except_else
    (r <~ send (SessionPost OAUTH2_TOKEN_REQUEST_URL token_request_data);;
     _ <~ raise_for_status r;;
     ret r)
    (on_RequestException "Token request failed: ")
    (fun r =>
       res <~ Response_json r;;
       has_error <~ py_contains "error" res;;
       if has_error : bool then
         error <~ py_getitem res "error";;
         raise (GoogleAuthError ("Token request error: " ++ repr rt error))
       else ret res).

(** The [token_request_data] of the two grants. *)
Definition refresh_token_request_data (refresh_token : string) : list (string * string) :=
  [ ("client_id", OAUTH2_CLIENT_ID);
    ("client_secret", OAUTH2_CLIENT_SECRET);
    ("grant_type", "refresh_token");
    ("refresh_token", refresh_token) ].

Definition code_request_data (authorization_code : string) : list (string * string) :=
  [ ("client_id", OAUTH2_CLIENT_ID);
    ("client_secret", OAUTH2_CLIENT_SECRET);
    ("code", authorization_code);
    ("grant_type", "authorization_code");
    ("redirect_uri", "urn:ietf:wg:oauth:2.0:oob") ].

Definition _auth_with_refresh_token (refresh_token : string) : M World json :=
  res <~ _make_token_request (refresh_token_request_data refresh_token);;
  py_getitem res "access_token".

(** The pair is built left to right: [res['access_token']] is looked up
    first. *)
Definition _auth_with_code (authorization_code : string) : M World (json * json) :=
  res <~ _make_token_request (code_request_data authorization_code);;
  access_token <~ py_getitem res "access_token";;
  refresh_token <~ py_getitem res "refresh_token";;
  ret (access_token, refresh_token).

(** ** Session cookies *)

Definition OAUTH_LOGIN_URL : string :=
  "https://accounts.google.com/accounts/OAuthLogin?source=hangups&issueuberauth=1".

Definition MERGE_SESSION_URL (uberauth : string) : string :=
  "https://accounts.google.com/MergeSession?service=mail&continue=http://www.google.com&uberauth="
  ++ uberauth.

(** The first and the second [try] block of [_get_session_cookies]. *)
Definition oauth_login_request (hdrs : list (string * string)) : M World Response :=
  try_except
    (r <~ send (SessionGet OAUTH_LOGIN_URL hdrs);;
     _ <~ raise_for_status r;;
     ret r)
    (on_RequestException "OAuthLogin request failed: ").

Definition merge_session_request (uberauth : string) (hdrs : list (string * string))
    : M World Response :=
  try_except
    (r <~ send (SessionGet (MERGE_SESSION_URL uberauth) hdrs);;
     _ <~ raise_for_status r;;
     ret r)
    (on_RequestException "MergeSession request failed: ").

Definition bearer (access_token : json) : list (string * string) :=
  [("Authorization", ("Bearer " ++ py_str access_token)%string)].

Definition _get_session_cookies (access_token : json) : M World (gmap string string) :=
  let hdrs := bearer access_token in
  r <~ oauth_login_request hdrs;;
  let uberauth := text r in
  _ <~ merge_session_request uberauth hdrs;;
  fun w =>
    let cookies := get_dict ".google.com" (cookies (session w)) in
    if bool_decide (cookies = ∅) then
      (Raise (GoogleAuthError "Failed to find session cookies"), w)
    else (Ok cookies, w).

(** ** get_auth *)

(** [session = requests.Session()] with the user agent as its only header. *)
Definition fresh_session : Session :=
  {| headers := [("user-agent", USER_AGENT rt)]; cookies := [] |}.

Definition new_session : M World unit :=
  fun w => (Ok tt, with_session fresh_session w).

(** The [try] block of [get_auth]. *)
Definition refresh_token_path (refresh_token_cache : RefreshTokenCache) : M World json :=
  refresh_token <~ RefreshTokenCache_get refresh_token_cache;;
  match refresh_token with
  | None => raise (GoogleAuthError "Refresh token not found")
  | Some refresh_token => _auth_with_refresh_token refresh_token
  end.

(** The [except GoogleAuthError] block of [get_auth]. *)
Definition credential_path (credentials_prompt : CredentialsPrompt)
    (refresh_token_cache : RefreshTokenCache) : M World json :=
  authorization_code <~ _get_authorization_code credentials_prompt;;
  tokens <~ _auth_with_code authorization_code;;
  let '(access_token, refresh_token) := tokens in
  _ <~ RefreshTokenCache_set refresh_token_cache refresh_token;;
  ret access_token.

Definition get_auth (credentials_prompt : CredentialsPrompt)
    (refresh_token_cache : RefreshTokenCache) : M World (gmap string string) :=
  _ <~ new_session;;
  access_token <~ try_except
                    (refresh_token_path refresh_token_cache)
                    (fun e => match e with
                              | GoogleAuthError _ =>
                                  Some (credential_path credentials_prompt refresh_token_cache)
                              | _ => None
                              end);;
  _get_session_cookies access_token.

End Auth.

(** ** Concrete runs

    A runtime, pages, answers of the provider and worlds on which the
    module is evaluated below. *)
Module Run.

(** [repr] of a string without quotes or escapes; selectors [#id] and
    element names. *)
Definition rt : Runtime :=
  {| repr := fun v => match v with
                      | JStr s => ("'" ++ s ++ "'")%string
                      | JNull => "None"
                      | _ => "<object>"
                      end;
     str_other := fun v => match v with JNull => "None" | _ => "<object>" end;
     selector_matches := fun sel t =>
       match sel with
       | String ("#"%char) id => bool_decide (dict_get "id" (tag_attrs t) = Some id)
       | _ => String.eqb sel (tag_name t)
       end;
     USER_AGENT := "hangups/0.3.6 (Linux x86_64)" |}.

Definition input (id : string) : Tag :=
  mkTag "input" [("id", id); ("value", "")] [].

Definition document (body : list Tag) : Tag :=
  mkTag "[document]" [] [mkTag "html" [] [mkTag "body" [] body]].

Definition reply (status : Z) (why location : string) : Response :=
  {| status_code := status; reason := why; url := location; text := "";
     body_json := None; soup := document []; set_cookies := [] |}.

Definition with_json (v : json) (r : Response) : Response :=
  {| status_code := status_code r; reason := reason r; url := url r;
     text := text r; body_json := Some v; soup := soup r;
     set_cookies := set_cookies r |}.

Definition with_text (s : string) (r : Response) : Response :=
  {| status_code := status_code r; reason := reason r; url := url r;
     text := s; body_json := body_json r; soup := soup r;
     set_cookies := set_cookies r |}.

Definition with_cookies (cs : list Cookie) (r : Response) : Response :=
  {| status_code := status_code r; reason := reason r; url := url r;
     text := text r; body_json := body_json r; soup := soup r;
     set_cookies := cs |}.

Definition login_url : string := "https://accounts.google.com/ServiceLogin".

Definition email_page : Response :=
  with_soup (document [mkTag "form" [("id", "gaia_loginform")] [input "Email"]])
            (reply 200 "OK" login_url).

Definition password_page : Response :=
  with_soup (document [mkTag "form" [("id", "gaia_loginform")] [input "Passwd"]])
            (reply 200 "OK" login_url).

Definition code_page (code : string) : Response :=
  with_cookies [ {| cookie_name := "oauth_code"; cookie_value := code;
                    cookie_domain := "accounts.google.com" |} ]
               (reply 200 "OK" login_url).

Definition sid_cookie : Cookie :=
  {| cookie_name := "SID"; cookie_value := "sid-value"; cookie_domain := ".google.com" |}.

(** The provider, with the answers of the token endpoint to the two grants
    left open.  The login goes through the email and the password form and
    ends on a page that sets the [oauth_code] cookie; [OAuthLogin] answers
    with the text [uber] and [MergeSession] sets the cookies [merged]. *)
Definition provider (refresh_grant code_grant : HttpOutcome) (merged : list Cookie)
    (history : list Event) (s : Session) (req : Request) : HttpOutcome :=
  match req with
  | SessionPost _ data =>
      if bool_decide (dict_get "grant_type" data = Some "refresh_token")
      then refresh_grant else code_grant
  | SessionGet location _ =>
      if String.eqb location OAUTH_LOGIN_URL
      then Reply (with_text "uber" (reply 200 "OK" location))
      else Reply (with_cookies merged (reply 200 "OK" location))
  | BrowserGet _ => Reply email_page
  | BrowserSubmit form _ =>
      match tag_children form with
      | [mkTag _ [("id", "Email"); _] _] => Reply password_page
      | _ => Reply (code_page "code123")
      end
  end.

Definition token_reply (status : Z) (why : string) (body : gmap string json) : HttpOutcome :=
  Reply (with_json (JDict body) (reply status why OAUTH2_TOKEN_REQUEST_URL)).

Definition no_faults (refresh_grant code_grant : HttpOutcome) (merged : list Cookie) : Env :=
  {| http := provider refresh_grant code_grant merged;
     read_fault := fun _ => false;
     write_fault := fun _ => false |}.

Definition cache : RefreshTokenCache := {| _filename := "refresh_token.txt" |}.

Definition prompt : CredentialsPrompt :=
  {| email := "user@x.com"; password := "pw"; verification_code := "000000" |}.

Definition world (fs : gmap string string) : World :=
  {| files := fs; session := {| headers := []; cookies := [] |}; trace := [] |}.

(** A cached token [abc] that the provider accepts. *)
Definition env_refresh_ok : Env :=
  no_faults (token_reply 200 "OK" {[ "access_token" := JStr "T1" ]})
            (ConnectionError "unreachable") [sid_cookie].

(** No usable cached token: the code grant returns both tokens. *)
Definition env_code_ok : Env :=
  no_faults (token_reply 400 "Bad Request" {[ "error" := JStr "invalid_grant" ]})
            (token_reply 200 "OK" {[ "access_token" := JStr "T2";
                                     "refresh_token" := JStr "R2" ]})
            [sid_cookie].

(** The token endpoint answers the refresh grant with 200 and an object
    without [access_token]. *)
Definition env_refresh_empty : Env :=
  no_faults (token_reply 200 "OK" ∅)
            (token_reply 200 "OK" {[ "access_token" := JStr "T2";
                                     "refresh_token" := JStr "R2" ]})
            [sid_cookie].

(** The code grant returns an access token and no refresh token. *)
Definition env_code_no_refresh : Env :=
  no_faults (token_reply 400 "Bad Request" {[ "error" := JStr "invalid_grant" ]})
            (token_reply 200 "OK" {[ "access_token" := JStr "T2" ]})
            [sid_cookie].

(** Both derivation calls succeed and no cookie is set for [.google.com]. *)
Definition env_no_cookies : Env :=
  no_faults (token_reply 200 "OK" {[ "access_token" := JStr "T1" ]})
            (ConnectionError "unreachable") [].

(** The token endpoint reports an error in a response with status 200. *)
Definition env_error_200 : Env :=
  no_faults (token_reply 200 "OK" {[ "error" := JStr "invalid_grant" ]})
            (token_reply 200 "OK" {[ "error" := JStr "invalid_grant" ]})
            [sid_cookie].

Definition refresh_grant_data : list (string * string) :=
  refresh_token_request_data "abc".


(** Nothing can be reached. *)
Definition env_offline : Env :=
  {| http := fun _ _ _ => ConnectionError "unreachable";
     read_fault := fun _ => false;
     write_fault := fun _ => false |}.


End Run.

(** ** Concrete runs with failures *)
Module Faults.

Definition forbidden : Response := Run.reply 403 "Forbidden" Run.login_url.

(** The login page loads; what follows is decided by [submission],
    [token] and [derivation]. *)
Definition provider (submission token : HttpOutcome) (derivation : string -> HttpOutcome)
    (history : list Event) (s : Session) (req : Request) : HttpOutcome :=
  match req with
  | BrowserGet _ => Reply Run.email_page
  | BrowserSubmit _ _ => submission
  | SessionPost _ _ => token
  | SessionGet location _ => derivation location
  end.

Definition env_of (answer : list Event -> Session -> Request -> HttpOutcome) : Env :=
  {| http := answer; read_fault := fun _ => false; write_fault := fun _ => false |}.

Definition unreachable (location : string) : HttpOutcome := ConnectionError "unreachable".

(** Every submission is answered with 403. *)
Definition env_submit_forbidden : Env :=
  env_of (provider (Reply forbidden) (ConnectionError "unreachable") unreachable).

(** No submission is delivered. *)
Definition env_submit_unreachable : Env :=
  env_of (provider (ConnectionError "connection reset") (ConnectionError "unreachable")
                   unreachable).

(** The submissions succeed and set no cookie. *)
Definition env_no_code_cookie : Env :=
  env_of (provider (Reply Run.email_page) (ConnectionError "unreachable") unreachable).

(** The token endpoint answers with a page that is not JSON. *)
Definition env_token_not_json : Env :=
  env_of (provider (Reply (Run.code_page "code123"))
                   (Reply (Run.reply 200 "OK" OAUTH2_TOKEN_REQUEST_URL)) unreachable).

(** The token endpoint cannot be reached. *)
Definition env_token_unreachable : Env :=
  env_of (provider (Reply (Run.code_page "code123")) (ConnectionError "timed out")
                   unreachable).

(** The code grant returns [null] as the refresh token. *)
Definition env_null_refresh_token : Env :=
  env_of (Run.provider (ConnectionError "unreachable")
            (Run.token_reply 200 "OK" {[ "access_token" := JStr "T2";
                                         "refresh_token" := JNull ]})
            [Run.sid_cookie]).

(** [OAuthLogin] is answered with 401. *)
Definition env_oauth_login_denied : Env :=
  env_of (provider (Reply (Run.code_page "code123")) (ConnectionError "unreachable")
            (fun location => Reply (Run.reply 401 "Unauthorized" location))).

(** [OAuthLogin] succeeds and [MergeSession] is answered with 500. *)
Definition env_merge_session_broken : Env :=
  env_of (provider (Reply (Run.code_page "code123")) (ConnectionError "unreachable")
            (fun location =>
               if String.eqb location OAUTH_LOGIN_URL
               then Reply (Run.with_text "uber" (Run.reply 200 "OK" location))
               else Reply (Run.reply 500 "Internal Server Error" location))).

End Faults.

(** ** Vocabulary of the properties *)

(** [adds P w w']: the history of [w'] is that of [w] followed by further
    calls, all of which satisfy [P]. *)
Definition adds (P : Event -> Prop) (w w' : World) : Prop :=
  exists evs, trace w' = trace w ++ evs /\ Forall P evs.

Definition any_event (ev : Event) : Prop := True.

(** [grows world_of m]: running [m] adds calls to the history and removes
    none. *)
Definition grows {S A} (world_of : S -> World) (m : M S A) : Prop :=
  forall s, adds any_event (world_of s) (world_of (snd (m s))).

Definition is_session_get (ev : Event) : Prop :=
  match ev with EvRequest (SessionGet _ _) => True | _ => False end.

(** The refresh-token path reads the cache and posts at most one token
    request. *)
Definition is_refresh_event (ev : Event) : Prop :=
  match ev with
  | EvCacheGet _ => True
  | EvRequest (SessionPost _ data) => exists t, data = refresh_token_request_data t
  | _ => False
  end.

(** Neither a call to the credential source nor a request of the browser. *)
Definition quiet (ev : Event) : Prop :=
  is_credential_event ev = false /\ is_browser_event ev = false.

(** The calls of a login that returns the authorization code: the login
    page, the email and its form, the password and its form and, when the
    page then shows the verification form, the code and its form. *)
Definition login_events (evs : list Event) : Prop :=
  exists f1 u1 f2 u2 tail,
    evs = [ EvRequest (BrowserGet OAUTH2_LOGIN_URL);
            EvGetEmail; EvRequest (BrowserSubmit f1 u1);
            EvGetPassword; EvRequest (BrowserSubmit f2 u2) ] ++ tail /\
    (tail = [] \/
     exists f3 u3, tail = [EvGetVerificationCode; EvRequest (BrowserSubmit f3 u3)]).

(** ** Vocabulary of the further properties *)






(** [keeps R world_of m]: the worlds before and after [m] are related by
    [R], whatever the outcome. *)
Definition keeps {S A} (R : World -> World -> Prop) (world_of : S -> World)
    (m : M S A) : Prop :=
  forall s, R (world_of s) (world_of (snd (m s))).

Definition same_headers (w w' : World) : Prop :=
  headers (session w') = headers (session w).


Definition same_files (w w' : World) : Prop := files w' = files w.



(** The message of the [RequestException] that an exchange ends with, if it
    does: that of the transport, or that of [raise_for_status]. *)
Definition failure_message (outcome : HttpOutcome) : option string :=
  match outcome with
  | ConnectionError msg => Some msg
  | Reply r => if is_http_error r then Some (http_error_msg r) else None
  end.

(** * Properties *)

(** ** The token cache *)






(** ** Token requests *)

Lemma send_reply env req w r :
  http env (trace w) (session w) req = Reply r ->
  send env req w = (Ok r, received req r w).
Proof. intros H. unfold send. by rewrite H. Qed.

(** C1, as the code has it: a response of the token endpoint with an
    [error] key always makes [_make_token_request] raise [GoogleAuthError];
    the message embeds the error value when the status is not a 4xx or 5xx,
    and is the message of the HTTP error otherwise. *)
Theorem make_token_request_error_key rt env data w r o v :
  http env (trace w) (session w) (SessionPost OAUTH2_TOKEN_REQUEST_URL data) = Reply r ->
  body_json r = Some (JDict o) ->
  o !! "error" = Some v ->
  fst (_make_token_request rt env data w) =
    Raise (GoogleAuthError
             (if is_http_error r
              then "Token request failed: " ++ http_error_msg r
              else "Token request error: " ++ repr rt v)).
Proof.
  intros Hreply Hjson Herr.
  unfold _make_token_request, try_except_else, bind.
  rewrite (send_reply _ _ _ _ Hreply). unfold raise_for_status.
  destruct (is_http_error r); simpl; [done|].
  unfold Response_json. rewrite Hjson. simpl. by rewrite Herr.
Qed.

Lemma make_token_request_error_key_witness :
  fst (_make_token_request Run.rt Run.env_error_200 Run.refresh_grant_data (Run.world ∅))
    = Raise (GoogleAuthError "Token request error: 'invalid_grant'").
Proof.
  exact (make_token_request_error_key Run.rt Run.env_error_200 Run.refresh_grant_data
           (Run.world ∅)
           (Run.with_json (JDict {[ "error" := JStr "invalid_grant" ]})
              (Run.reply 200 "OK" OAUTH2_TOKEN_REQUEST_URL))
           {[ "error" := JStr "invalid_grant" ]} (JStr "invalid_grant")
           eq_refl eq_refl eq_refl).
Defined.

(** C1 as stated fails: with status 400, the [GoogleAuthError] carries the
    message of the HTTP error, in which the error value of the body does not
    occur. *)
Lemma make_token_request_http_error_hides_error_value :
  fst (_make_token_request Run.rt Run.env_code_ok Run.refresh_grant_data (Run.world ∅))
    = Raise (GoogleAuthError
        "Token request failed: 400 Client Error: Bad Request for url: https://accounts.google.com/o/oauth2/token")
  /\ fst (_make_token_request Run.rt Run.env_code_ok Run.refresh_grant_data (Run.world ∅))
    <> Raise (GoogleAuthError ("Token request error: " ++ repr Run.rt (JStr "invalid_grant")))
  /\ str_contains "invalid_grant"
       "Token request failed: 400 Client Error: Bad Request for url: https://accounts.google.com/o/oauth2/token"
     = false.
Proof. split; [by vm_compute|]. split; [by vm_compute|]. by vm_compute. Qed.

(** A successful response without [error] is returned as it is. *)
Lemma make_token_request_returns rt env data w r o :
  http env (trace w) (session w) (SessionPost OAUTH2_TOKEN_REQUEST_URL data) = Reply r ->
  is_http_error r = false ->
  body_json r = Some (JDict o) ->
  o !! "error" = None ->
  _make_token_request rt env data w
    = (Ok (JDict o), received (SessionPost OAUTH2_TOKEN_REQUEST_URL data) r w).
Proof.
  intros Hreply Hok Hjson Herr.
  unfold _make_token_request, try_except_else, bind.
  rewrite (send_reply _ _ _ _ Hreply). unfold raise_for_status. rewrite Hok. simpl.
  unfold Response_json. rewrite Hjson. simpl. by rewrite Herr.
Qed.

(** What the code does on every successful response that lacks
    [access_token]: the lookup raises [KeyError]. *)
Lemma auth_with_refresh_token_missing_key rt env refresh_token w r o :
  http env (trace w) (session w)
       (SessionPost OAUTH2_TOKEN_REQUEST_URL (refresh_token_request_data refresh_token))
    = Reply r ->
  is_http_error r = false ->
  body_json r = Some (JDict o) ->
  o !! "error" = None ->
  o !! "access_token" = None ->
  fst (_auth_with_refresh_token rt env refresh_token w) = Raise (KeyError "access_token").
Proof.
  intros Hreply Hok Hjson Herr Hkey. unfold _auth_with_refresh_token, bind.
  rewrite (make_token_request_returns _ _ _ _ _ _ Hreply Hok Hjson Herr).
  simpl. by rewrite Hkey.
Qed.

(** C2 does not hold of the code: on a response with status 200 and no
    [error], the refresh-token grant without [access_token] and the
    authorization-code grant without [refresh_token] raise [KeyError], not
    [GoogleAuthError]. *)
Theorem token_exchange_missing_key_raises_KeyError :
  fst (_auth_with_refresh_token Run.rt Run.env_refresh_empty "abc" (Run.world ∅))
    = Raise (KeyError "access_token") /\
  fst (_auth_with_code Run.rt Run.env_code_no_refresh "code123" (Run.world ∅))
    = Raise (KeyError "refresh_token").
Proof. split; by vm_compute. Qed.

(** ** Session cookies *)

(** C7: when both derivation calls are answered with a status that is not
    an HTTP error and the jar then holds no cookie of the domain
    [.google.com], [_get_session_cookies] raises [GoogleAuthError]; and a
    cookie map that it returns is never empty. *)
Theorem get_session_cookies_never_empty rt env access_token w :
  (forall r1 r2,
     let req1 := SessionGet OAUTH_LOGIN_URL (bearer rt access_token) in
     let req2 := SessionGet (MERGE_SESSION_URL (text r1)) (bearer rt access_token) in
     let w1 := received req1 r1 w in
     let w2 := received req2 r2 w1 in
     http env (trace w) (session w) req1 = Reply r1 ->
     is_http_error r1 = false ->
     http env (trace w1) (session w1) req2 = Reply r2 ->
     is_http_error r2 = false ->
     get_dict ".google.com" (cookies (session w2)) = ∅ ->
     _get_session_cookies rt env access_token w
       = (Raise (GoogleAuthError "Failed to find session cookies"), w2)) /\
  (forall cookies w',
     _get_session_cookies rt env access_token w = (Ok cookies, w') -> cookies <> ∅).
Proof.
  split.
  - intros r1 r2 req1 req2 w1 w2 H1 Hok1 H2 Hok2 Hempty.
    unfold _get_session_cookies, oauth_login_request, merge_session_request,
      try_except, try_except_else, bind.
    fold req1. rewrite (send_reply _ _ _ _ H1).
    unfold raise_for_status. rewrite Hok1. simpl.
    fold req2 w1. rewrite (send_reply _ _ _ _ H2). rewrite Hok2. simpl.
    by rewrite bool_decide_eq_true_2.
  - intros cookies w'.
    unfold _get_session_cookies, bind.
    destruct (oauth_login_request _ _ _) as [[r|e] w1]; [|done].
    destruct (merge_session_request _ _ _ _) as [[r'|e] w2]; [|done].
    case_bool_decide; [done|]. congruence.
Qed.

Lemma get_session_cookies_never_empty_witness :
  fst (_get_session_cookies Run.rt Run.env_no_cookies (JStr "T1") (Run.world ∅))
    = Raise (GoogleAuthError "Failed to find session cookies").
Proof.
  pose proof (proj1 (get_session_cookies_never_empty
                       Run.rt Run.env_no_cookies (JStr "T1") (Run.world ∅))
                (Run.with_text "uber" (Run.reply 200 "OK" OAUTH_LOGIN_URL))
                (Run.with_cookies [] (Run.reply 200 "OK" (MERGE_SESSION_URL "uber")))
                eq_refl eq_refl eq_refl eq_refl eq_refl) as H.
  exact (f_equal fst H).
Defined.

(** ** The history of a run *)

Lemma send_trace env req w :
  trace (snd (send env req w)) = trace w ++ [EvRequest req].
Proof. unfold send. by destruct (http env _ _ _). Qed.

Lemma make_token_request_trace rt env data w :
  trace (snd (_make_token_request rt env data w))
    = trace w ++ [EvRequest (SessionPost OAUTH2_TOKEN_REQUEST_URL data)].
Proof.
  unfold _make_token_request, try_except_else, bind.
  pose proof (send_trace env (SessionPost OAUTH2_TOKEN_REQUEST_URL data) w) as Ht.
  destruct (send env _ w) as [[r|e] w1]; simpl in *.
  - unfold raise_for_status. destruct (is_http_error r); simpl; [done|].
    unfold Response_json. destruct (body_json r) as [res|]; simpl; [|done].
    destruct res as [| | | |?|d]; simpl; try done;
      try (by case_match).
    destruct (d !! "error"); by simpl.
  - by destruct e.
Qed.

Lemma auth_with_refresh_token_trace rt env refresh_token w :
  trace (snd (_auth_with_refresh_token rt env refresh_token w))
    = trace w ++ [EvRequest (SessionPost OAUTH2_TOKEN_REQUEST_URL
                               (refresh_token_request_data refresh_token))].
Proof.
  unfold _auth_with_refresh_token, bind.
  pose proof (make_token_request_trace rt env (refresh_token_request_data refresh_token) w) as Ht.
  destruct (_make_token_request _ _ _ w) as [[res|e] w1]; simpl in *; [|done].
  unfold py_getitem. by repeat case_match.
Qed.


Lemma adds_trans P w1 w2 w3 : adds P w1 w2 -> adds P w2 w3 -> adds P w1 w3.
Proof.
  intros (evs1 & H1 & HP1) (evs2 & H2 & HP2). exists (evs1 ++ evs2).
  split; [by rewrite H2, H1, app_assoc|]. by apply Forall_app.
Qed.

Lemma adds_weaken (P Q : Event -> Prop) w w' :
  (forall ev, P ev -> Q ev) -> adds P w w' -> adds Q w w'.
Proof.
  intros HPQ (evs & H & HP). exists evs. split; [done|].
  eapply Forall_impl; eauto.
Qed.

Lemma adds_one (P : Event -> Prop) w w' ev :
  trace w' = trace w ++ [ev] -> P ev -> adds P w w'.
Proof. intros H HP. exists [ev]. split; [done|]. by constructor. Qed.

(** A [try] block around one request and [raise_for_status]. *)
Lemma checked_request_adds {A} env prefix req (k : Response -> M World A) w :
  (forall r w0, snd (k r w0) = w0) ->
  trace (snd (try_except_else
                (r <~ send env req;; _ <~ raise_for_status r;; ret r)
                (on_RequestException prefix) k w))
    = trace w ++ [EvRequest req].
Proof.
  intros Hk. unfold try_except_else, bind.
  pose proof (send_trace env req w) as Ht.
  destruct (send env req w) as [[r|e] w1]; simpl in *.
  - unfold raise_for_status. destruct (is_http_error r); simpl; [done|].
    by rewrite Hk.
  - by destruct e.
Qed.

Lemma get_session_cookies_adds rt env access_token w :
  adds is_session_get w (snd (_get_session_cookies rt env access_token w)).
Proof.
  unfold _get_session_cookies, bind.
  pose proof (checked_request_adds env "OAuthLogin request failed: "
                (SessionGet OAUTH_LOGIN_URL (bearer rt access_token)) ret w
                (fun _ _ => eq_refl)) as H1.
  change (try_except_else _ _ ret)
    with (oauth_login_request env (bearer rt access_token)) in H1.
  destruct (oauth_login_request _ _ w) as [[r|e] w1]; simpl in *;
    [|eapply adds_one; [exact H1|exact I]].
  pose proof (checked_request_adds env "MergeSession request failed: "
                (SessionGet (MERGE_SESSION_URL (text r)) (bearer rt access_token)) ret w1
                (fun _ _ => eq_refl)) as H2.
  change (try_except_else _ _ ret)
    with (merge_session_request env (text r) (bearer rt access_token)) in H2.
  apply adds_trans with w1; [eapply adds_one; [exact H1|exact I]|].
  destruct (merge_session_request _ _ _ w1) as [[r'|e] w2]; simpl in *.
  - case_bool_decide; (eapply adds_one; [exact H2|exact I]).
  - eapply adds_one; [exact H2|exact I].
Qed.

Lemma cache_get_trace env self w :
  trace (snd (RefreshTokenCache_get env self w)) = trace w ++ [EvCacheGet (_filename self)].
Proof. unfold RefreshTokenCache_get. by repeat case_match. Qed.


Lemma refresh_token_path_adds rt env self w :
  adds is_refresh_event w (snd (refresh_token_path rt env self w)).
Proof.
  unfold refresh_token_path, bind.
  pose proof (cache_get_trace env self w) as Hg.
  destruct (RefreshTokenCache_get env self w) as [[[t|]|e] w1]; simpl in *;
    try (eapply adds_one; [exact Hg|exact I]).
  apply adds_trans with w1; [eapply adds_one; [exact Hg|exact I]|].
  eapply adds_one; [apply auth_with_refresh_token_trace|]. by exists t.
Qed.

(** ** get_auth with a cached refresh token *)

Lemma refresh_event_quiet ev : is_refresh_event ev -> quiet ev.
Proof. by destruct ev as [| | | | |[]]. Qed.

Lemma session_get_quiet ev : is_session_get ev -> quiet ev.
Proof. by destruct ev as [| | | | |[]]. Qed.

Lemma refresh_token_path_unfold rt env self w t :
  fst (RefreshTokenCache_get env self w) = Ok (Some t) ->
  refresh_token_path rt env self w
    = _auth_with_refresh_token rt env t (snd (RefreshTokenCache_get env self w)).
Proof.
  intros H. unfold refresh_token_path, bind.
  destruct (RefreshTokenCache_get env self w) as [r w1]. simpl in *. by subst.
Qed.

(** C4: when the cache holds a refresh token and the refresh-token grant
    yields an access token, [get_auth] is the derivation of the session
    cookies from that token: it calls none of [get_email], [get_password]
    and [get_verification_code], and the browser sends no request. *)
Theorem get_auth_valid_refresh_token rt env credentials_prompt self w t access_token w1 :
  let w0 := with_session (fresh_session rt) w in
  fst (RefreshTokenCache_get env self w0) = Ok (Some t) ->
  _auth_with_refresh_token rt env t (snd (RefreshTokenCache_get env self w0))
    = (Ok access_token, w1) ->
  get_auth rt env credentials_prompt self w = _get_session_cookies rt env access_token w1 /\
  exists evs,
    trace (snd (get_auth rt env credentials_prompt self w)) = trace w ++ evs /\
    Forall quiet evs.
Proof.
  intros w0 Hget Hauth.
  assert (Hpath : refresh_token_path rt env self w0 = (Ok access_token, w1)).
  { by rewrite (refresh_token_path_unfold _ _ _ _ _ Hget). }
  assert (Hrun : get_auth rt env credentials_prompt self w
                 = _get_session_cookies rt env access_token w1).
  { unfold get_auth, bind, new_session, try_except, try_except_else.
    fold w0. by rewrite Hpath. }
  split; [done|]. rewrite Hrun.
  change (adds quiet w (snd (_get_session_cookies rt env access_token w1))).
  apply adds_trans with w1.
  - pose proof (refresh_token_path_adds rt env self w0) as Ha.
    rewrite Hpath in Ha. eapply adds_weaken; [apply refresh_event_quiet|exact Ha].
  - eapply adds_weaken; [apply session_get_quiet|apply get_session_cookies_adds].
Qed.

Lemma get_auth_valid_refresh_token_witness :
  exists evs,
    trace (snd (get_auth Run.rt Run.env_refresh_ok Run.prompt Run.cache
                  (Run.world {[ "refresh_token.txt" := "abc" ]}))) = [] ++ evs /\
    Forall quiet evs.
Proof.
  refine (proj2 (get_auth_valid_refresh_token Run.rt Run.env_refresh_ok Run.prompt Run.cache
                   (Run.world {[ "refresh_token.txt" := "abc" ]}) "abc" (JStr "T1") _ _ _)).
  - reflexivity.
  - vm_compute. reflexivity.
Defined.

(** ** The browser *)

Lemma dict_set_value_erased value (a : list (string * string)) :
  List.filter (fun kv => negb (String.eqb (fst kv) "value")) (dict_set "value" value a)
    = List.filter (fun kv => negb (String.eqb (fst kv) "value")) a.
Proof.
  induction a as [|[k v] a IH]; [done|].
  simpl. destruct (String.eqb k "value") eqn:Hk; simpl; rewrite Hk; simpl; [done|].
  by rewrite IH.
Qed.

Lemma erase_values_setitem value t :
  erase_values (tag_setitem "value" value t) = erase_values t.
Proof. destruct t as [n a c]. simpl. by rewrite dict_set_value_erased. Qed.

Lemma map_alter_absorb {A B} (f : A -> B) (g : A -> A) i (l : list A) :
  (forall x, f (g x) = f x) -> map f (alter g i l) = map f l.
Proof.
  intros Hfg. revert i. induction l as [|x l IH]; intros [|i]; simpl; try done.
  - by rewrite Hfg.
  - f_equal. apply IH.
Qed.

Lemma erase_values_update_at value p t :
  erase_values (update_at (tag_setitem "value" value) p t) = erase_values t.
Proof.
  revert t. induction p as [|i p IH]; intros t.
  - apply erase_values_setitem.
  - destruct t as [n a c]. simpl. f_equal. by apply map_alter_absorb.
Qed.

(** Filling the fields sends nothing and leaves all of the page but the
    values of its fields. *)
Lemma fill_inputs_frame rt form items b w :
  exists t,
    snd (fill_inputs rt form items (b, w)) = ({| _page := with_soup t (_page b) |}, w) /\
    erase_values t = erase_values (soup (_page b)).
Proof.
  revert b. induction items as [|[selector value] items IH]; intros b.
  - exists (soup (_page b)). by destruct b as [[]].
  - simpl. unfold bind, try_except, try_except_else, get_page. simpl.
    destruct (select_in rt selector form (soup (_page b))) as [|input rest]; simpl.
    + exists (soup (_page b)). by destruct b as [[]].
    + destruct (IH {| _page := with_soup
                       (update_at (tag_setitem "value" value) input (soup (_page b)))
                       (_page b) |}) as (t & Ht & Hev).
      exists t. split; [by rewrite Ht|].
      rewrite Hev. simpl. apply erase_values_update_at.
Qed.

Lemma bind_assoc {S A B C} (m : M S A) (k : A -> M S B) (k' : B -> M S C) s :
  (y <~ (x <~ m;; k x);; k' y) s = (x <~ m;; y <~ k x;; k' y) s.
Proof. unfold bind. by destruct (m s) as [[a|e] s1]. Qed.

Lemma bind_ext {S A B} (m : M S A) (k k' : A -> M S B) s :
  (forall a s', k a s' = k' a s') -> (x <~ m;; k x) s = (x <~ m;; k' x) s.
Proof. intros H. unfold bind. destruct (m s) as [[a|e] s1]; [apply H|done]. Qed.

Lemma fill_inputs_app rt form items1 items2 s :
  fill_inputs rt form (items1 ++ items2) s
    = (_ <~ fill_inputs rt form items1;; fill_inputs rt form items2) s.
Proof.
  revert s. induction items1 as [|[selector value] items1 IH]; intros s.
  - by destruct s.
  - cbn [app fill_inputs]. rewrite bind_assoc. apply bind_ext. intros _. apply IH.
Qed.

(** C6, as the code has it: when the form is found and a field selector
    finds nothing in it when its turn comes, [submit_form] raises
    [GoogleAuthError] with that selector in the message; no request is sent,
    the world is unchanged and the page is not replaced, but the fields that
    come before the missing one in [input_dict] have received their values.
    The page is as it was when the missing selector is the first. *)
Theorem submit_form_missing_input
    rt env form_selector b w form others found selector value later b1 :
  select rt form_selector (soup (_page b)) = form :: others ->
  fill_inputs rt form found (b, w) = (Ok tt, (b1, w)) ->
  select_in rt selector form (soup (_page b1)) = [] ->
  Browser_submit_form rt env form_selector (found ++ (selector, value) :: later) (b, w)
    = (Raise (GoogleAuthError
                ("Failed to find input " ++ repr rt (JStr selector) ++ " in form")),
       (b1, w)) /\
  with_soup (erase_values (soup (_page b1))) (_page b1)
    = with_soup (erase_values (soup (_page b))) (_page b) /\
  (found = [] -> b1 = b).
Proof.
  intros Hform Hfound Hmissing. split; [|split].
  - unfold Browser_submit_form.
    unfold bind at 1. unfold try_except, try_except_else, bind at 1, get_page.
    destruct b as [page]. simpl in *. rewrite Hform. simpl.
    unfold bind at 1. rewrite fill_inputs_app. unfold bind at 1. rewrite Hfound.
    cbn [fill_inputs]. unfold bind at 1, try_except, try_except_else, bind at 1, get_page.
    destruct b1 as [page1]. simpl in *. by rewrite Hmissing.
  - destruct (fill_inputs_frame rt form found b w) as (t & Ht & Hev).
    rewrite Hfound in Ht. simpl in Ht. injection Ht as ->.
    simpl. rewrite Hev. by destruct b as [[]].
  - intros ->. simpl in Hfound. by injection Hfound.
Qed.

Lemma submit_form_missing_input_witness :
  fst (Browser_submit_form Run.rt Run.env_code_ok FORM_SELECTOR
         [(EMAIL_SELECTOR, "user@x.com"); (PASSWORD_SELECTOR, "pw")]
         ({| _page := Run.email_page |}, Run.world ∅))
    = Raise (GoogleAuthError "Failed to find input '#Passwd' in form").
Proof.
  refine (f_equal fst (proj1 (submit_form_missing_input Run.rt Run.env_code_ok FORM_SELECTOR
            {| _page := Run.email_page |} (Run.world ∅) [0; 0; 0] []
            [(EMAIL_SELECTOR, "user@x.com")] PASSWORD_SELECTOR "pw" [] _ _ _ _)));
    vm_compute; reflexivity.
Defined.

(** C6 as stated fails: [#Email] is found and [#Passwd] is not; the call
    raises for [#Passwd] and leaves the value written into the [#Email]
    field of the current page. *)
Lemma submit_form_missing_input_mutates_page :
  Browser_submit_form Run.rt Run.env_code_ok FORM_SELECTOR
    [(EMAIL_SELECTOR, "user@x.com"); (PASSWORD_SELECTOR, "pw")]
    ({| _page := Run.email_page |}, Run.world ∅)
  = (Raise (GoogleAuthError "Failed to find input '#Passwd' in form"),
     ({| _page :=
           with_soup
             (Run.document
                [mkTag "form" [("id", "gaia_loginform")]
                   [mkTag "input" [("id", "Email"); ("value", "user@x.com")] []]])
             Run.email_page |},
      Run.world ∅))
  /\ with_soup
       (Run.document
          [mkTag "form" [("id", "gaia_loginform")]
             [mkTag "input" [("id", "Email"); ("value", "user@x.com")] []]])
       Run.email_page
     <> Run.email_page.
Proof. split; [by vm_compute|]. by vm_compute. Qed.

(** [submit_form] sends at most one request, the submission of the form,
    and sends it whenever it returns. *)
Lemma submit_form_trace rt env form_selector input_dict b w :
  let '(r, (_, w')) := Browser_submit_form rt env form_selector input_dict (b, w) in
  (exists form location, trace w' = trace w ++ [EvRequest (BrowserSubmit form location)]) \/
  (w' = w /\ exists e, r = Raise e).
Proof.
  unfold Browser_submit_form.
  unfold bind at 1. unfold try_except, try_except_else, bind at 1, get_page.
  destruct (select rt form_selector (soup (_page b))) as [|form others]; simpl.
  { right. eauto. }
  unfold bind at 1.
  destruct (fill_inputs_frame rt form input_dict b w) as (t & Ht & _).
  destruct (fill_inputs rt form input_dict (b, w)) as [[[]|e] [b2 w2]];
    simpl in Ht; injection Ht as -> ->; [|right; eauto].
  unfold try_except_else, bind, lift, get_page, set_page. simpl.
  pose proof (send_trace env
    (BrowserSubmit (default t (subtree form t)) (url (_page b))) w) as Hs.
  destruct (send env _ w) as [[page'|e] w3]; simpl in *.
  - unfold raise_for_status. destruct (is_http_error page'); simpl; left; eauto.
  - destruct e; simpl; left; eauto.
Qed.


Lemma submit_form_ok_trace rt env form_selector input_dict b w b' w' :
  Browser_submit_form rt env form_selector input_dict (b, w) = (Ok tt, (b', w')) ->
  exists form location, trace w' = trace w ++ [EvRequest (BrowserSubmit form location)].
Proof.
  intros H. pose proof (submit_form_trace rt env form_selector input_dict b w) as Ht.
  rewrite H in Ht. destruct Ht as [Ht|[_ [e He]]]; [done|discriminate].
Qed.

Lemma Browser_init_trace env location w :
  trace (snd (Browser_init env location w)) = trace w ++ [EvRequest (BrowserGet location)].
Proof.
  unfold Browser_init, try_except, try_except_else, bind.
  pose proof (send_trace env (BrowserGet location) w) as Hs.
  destruct (send env _ w) as [[page|e] w1]; simpl in *.
  - unfold raise_for_status. by destruct (is_http_error page).
  - by destruct e.
Qed.

Lemma get_authorization_code_ok_trace rt env credentials_prompt w code w' :
  _get_authorization_code rt env credentials_prompt w = (Ok code, w') ->
  exists evs, trace w' = trace w ++ evs /\ login_events evs.
Proof.
  intros H. unfold _get_authorization_code in H. unfold bind at 1 in H.
  pose proof (Browser_init_trace env OAUTH2_LOGIN_URL w) as H0.
  destruct (Browser_init env OAUTH2_LOGIN_URL w) as [[b|e] w0]; [|done].
  cbn [snd] in H0. unfold with_browser in H.
  unfold bind at 1, lift at 1, get_email at 1 in H.
  unfold bind at 1 in H. 
  destruct (Browser_submit_form rt env FORM_SELECTOR _ (b, log EvGetEmail w0))
    as [[[]|e] [b1 w1]] eqn:Hs1; [|done].
  apply submit_form_ok_trace in Hs1 as (f1 & u1 & Hs1).
  unfold bind at 1, lift at 1, get_password at 1 in H.
  unfold bind at 1 in H.
  destruct (Browser_submit_form rt env FORM_SELECTOR _ (b1, log EvGetPassword w1))
    as [[[]|e] [b2 w2]] eqn:Hs2; [|done].
  apply submit_form_ok_trace in Hs2 as (f2 & u2 & Hs2).
  unfold bind at 1, Browser_has_form at 1, bind at 1, get_page at 1, ret at 1 in H.
  assert (Hbase : trace w2 = trace w ++
            [ EvRequest (BrowserGet OAUTH2_LOGIN_URL);
              EvGetEmail; EvRequest (BrowserSubmit f1 u1);
              EvGetPassword; EvRequest (BrowserSubmit f2 u2) ]).
  { rewrite Hs2. cbn [log trace]. rewrite Hs1. cbn [log trace]. rewrite H0.
    by rewrite <- !app_assoc. }
  destruct (0 <? length (select rt VERIFICATION_FORM_SELECTOR (soup (_page b2)))).
  - unfold bind at 1, bind at 1, lift at 1, get_verification_code at 1 in H.
    destruct (Browser_submit_form rt env VERIFICATION_FORM_SELECTOR _
                (b2, log EvGetVerificationCode w2))
      as [[[]|e] [b3 w3]] eqn:Hs3; [|done].
    apply submit_form_ok_trace in Hs3 as (f3 & u3 & Hs3).
    unfold try_except, try_except_else, Browser_get_cookie in H.
    destruct (jar_getitem "oauth_code" (cookies (session w3))); [|done].
    injection H as _ <-.
    eexists. split; [|exists f1, u1, f2, u2; eexists; split; [done|right; eauto]].
    rewrite Hs3. cbn [log trace]. rewrite Hbase. by rewrite <- !app_assoc.
  - unfold bind at 1, ret at 1 in H.
    unfold try_except, try_except_else, Browser_get_cookie in H.
    destruct (jar_getitem "oauth_code" (cookies (session w2))); [|done].
    injection H as _ <-.
    eexists. split; [|exists f1, u1, f2, u2, []; split; [done|by left]].
    by rewrite Hbase, app_nil_r.
Qed.

(** ** The history only grows *)

Section Grows.

Context {S : Type} (world_of : S -> World).






End Grows.

Lemma grows_send env req : grows id (send env req).
Proof. intros w. eapply adds_one; [apply send_trace|done]. Qed.










(** ** A cached token is used as it is *)



(** ** get_auth without a usable cached token *)

Lemma count_app P evs1 evs2 : count P (evs1 ++ evs2) = count P evs1 + count P evs2.
Proof. induction evs1 as [|ev evs1 IH]; simpl; [done|]. rewrite IH. lia. Qed.

Lemma count_none (Q : Event -> Prop) P evs :
  (forall ev, Q ev -> P ev = false) -> Forall Q evs -> count P evs = 0.
Proof.
  intros HQ. induction 1 as [|ev evs Hev _ IH]; simpl; [done|].
  by rewrite (HQ _ Hev), IH.
Qed.




Lemma refresh_events_counts evs :
  Forall is_refresh_event evs ->
  count is_login_page_request evs = 0 /\ count is_get_email evs = 0 /\
  count is_get_password evs = 0 /\ count is_code_grant evs = 0 /\
  count is_cache_set evs = 0.
Proof.
  intros H. repeat split; (eapply count_none; [|exact H]);
    intros [| | | | |[]]; simpl; try done.
  intros [t ->]. simpl. apply andb_false_r.
Qed.


Lemma session_gets_counts evs :
  Forall is_session_get evs ->
  count is_login_page_request evs = 0 /\ count is_get_email evs = 0 /\
  count is_get_password evs = 0 /\ count is_code_grant evs = 0 /\
  count is_cache_set evs = 0.
Proof.
  intros H. repeat split; (eapply count_none; [|exact H]);
    by intros [| | | | |[]].
Qed.




(** ** Which failures get_auth recovers *)

(** The three ways out of the [try] statement: the token of the [try]
    block; the [except] block after a [GoogleAuthError]; any other
    exception, which leaves [get_auth] at once.  What the [except] block or
    the derivation of the session cookies raises is the result of
    [get_auth]. *)
Lemma get_auth_cases rt env credentials_prompt self w :
  get_auth rt env credentials_prompt self w =
    match refresh_token_path rt env self (with_session (fresh_session rt) w) with
    | (Ok access_token, w1) => _get_session_cookies rt env access_token w1
    | (Raise (GoogleAuthError _), w1) =>
        match credential_path rt env credentials_prompt self w1 with
        | (Ok access_token, w2) => _get_session_cookies rt env access_token w2
        | (Raise e, w2) => (Raise e, w2)
        end
    | (Raise e, w1) => (Raise e, w1)
    end.
Proof.
  unfold get_auth, bind at 1, new_session, bind at 1, try_except, try_except_else.
  destruct (refresh_token_path rt env self _) as [[access_token|e] w1]; [done|].
  by destruct e.
Qed.

(** C3 does not hold of the code: the cached token [abc] is answered with
    status 200 and an object without [access_token]; the [KeyError] of the
    lookup is not a [GoogleAuthError], so [get_auth] does not fall back to
    the credential path and the caller gets the [KeyError]. *)
Theorem get_auth_refresh_failure_not_recovered :
  fst (get_auth Run.rt Run.env_refresh_empty Run.prompt Run.cache
         (Run.world {[ "refresh_token.txt" := "abc" ]}))
    = Raise (KeyError "access_token") /\
  trace (snd (get_auth Run.rt Run.env_refresh_empty Run.prompt Run.cache
                (Run.world {[ "refresh_token.txt" := "abc" ]})))
    = [ EvCacheGet "refresh_token.txt";
        EvRequest (SessionPost OAUTH2_TOKEN_REQUEST_URL (refresh_token_request_data "abc")) ].
Proof. split; by vm_compute. Qed.

(** C9 does not hold of the code: without a cached token, a login that
    succeeds and an authorization-code grant answered with an access token
    and no refresh token, [get_auth] raises [KeyError]. *)
Theorem get_auth_raises_KeyError :
  fst (get_auth Run.rt Run.env_code_no_refresh Run.prompt Run.cache (Run.world ∅))
    = Raise (KeyError "refresh_token").
Proof. by vm_compute. Qed.

(** ** The two scenarios of a login *)

(** The token [abc] is cached and accepted: the result is the cookie map of
    the domain [.google.com]. *)
Example login_with_cached_token :
  fst (get_auth Run.rt Run.env_refresh_ok Run.prompt Run.cache
         (Run.world {[ "refresh_token.txt" := "abc" ]}))
    = Ok {[ "SID" := "sid-value" ]}.
Proof. by vm_compute. Qed.

(** No token is cached: the code [code123] is exchanged, [R2] is written to
    the cache and the cookie map is returned. *)
Example login_with_credentials :
  fst (get_auth Run.rt Run.env_code_ok Run.prompt Run.cache (Run.world ∅))
    = Ok {[ "SID" := "sid-value" ]} /\
  files (snd (get_auth Run.rt Run.env_code_ok Run.prompt Run.cache (Run.world ∅)))
    !! "refresh_token.txt" = Some "R2".
Proof. split; by vm_compute. Qed.

(** * Further properties *)

(** ** Which exceptions leave a function *)

Section RaisesOnly.

Context {S : Type}.









End RaisesOnly.



























(** ** A token endpoint that answers well *)






(** ** What a run leaves as it was *)

Section Keeps.

Context {S : Type} (R : World -> World -> Prop) (world_of : S -> World).
Hypothesis R_refl : forall w, R w w.
Hypothesis R_trans : forall w1 w2 w3, R w1 w2 -> R w2 w3 -> R w1 w3.

Lemma keeps_ret {A} (a : A) : keeps R world_of (ret a).
Proof. intros s. apply R_refl. Qed.

Lemma keeps_raise {A} e : keeps R world_of (raise (A:=A) e).
Proof. intros s. apply R_refl. Qed.

Lemma keeps_bind {A B} (m : M S A) (k : A -> M S B) :
  keeps R world_of m -> (forall a, keeps R world_of (k a)) -> keeps R world_of (bind m k).
Proof.
  intros Hm Hk s. unfold bind. specialize (Hm s).
  destruct (m s) as [[a|e] s1]; [|done].
  eapply R_trans; [exact Hm|apply Hk].
Qed.

Lemma keeps_try_except_else {A B} (m : M S A) h (k : A -> M S B) :
  keeps R world_of m ->
  (forall e handler, h e = Some handler -> keeps R world_of handler) ->
  (forall a, keeps R world_of (k a)) ->
  keeps R world_of (try_except_else m h k).
Proof.
  intros Hm Hh Hk s. unfold try_except_else. specialize (Hm s).
  destruct (m s) as [[a|e] s1].
  - eapply R_trans; [exact Hm|apply Hk].
  - destruct (h e) as [handler|] eqn:He; [|done].
    eapply R_trans; [exact Hm|by eapply Hh].
Qed.

Lemma keeps_try_except {A} (m : M S A) h :
  keeps R world_of m ->
  (forall e handler, h e = Some handler -> keeps R world_of handler) ->
  keeps R world_of (try_except m h).
Proof. intros Hm Hh. apply keeps_try_except_else; auto using @keeps_ret. Qed.

Lemma keeps_on_RequestException {A} prefix e (handler : M S A) :
  on_RequestException prefix e = Some handler -> keeps R world_of handler.
Proof. destruct e; try done. intros [= <-]. apply keeps_raise. Qed.

Lemma keeps_raise_for_status r : keeps R world_of (raise_for_status r).
Proof. unfold raise_for_status. destruct (is_http_error r); intros s; apply R_refl. Qed.

Lemma keeps_py_getitem obj key : keeps R world_of (py_getitem obj key).
Proof. intros s. unfold py_getitem. repeat case_match; apply R_refl. Qed.

Lemma keeps_py_contains key obj : keeps R world_of (py_contains key obj).
Proof. intros s. unfold py_contains. repeat case_match; apply R_refl. Qed.

End Keeps.

Section KeepsWorld.

Context (R : World -> World -> Prop).
Hypothesis R_refl : forall w, R w w.
Hypothesis R_trans : forall w1 w2 w3, R w1 w2 -> R w2 w3 -> R w1 w3.
Hypothesis R_log : forall ev w, R w (log ev w).
Hypothesis R_received : forall req r w, R w (received req r w).

Lemma keeps_send env req : keeps R id (send env req).
Proof. intros w. unfold send. destruct (http env _ _ _); [apply R_log|apply R_received]. Qed.

Lemma keeps_lift {A} (m : M World A) : keeps R id m -> keeps R snd (lift m).
Proof. intros Hm [b w]. unfold lift. specialize (Hm w). by destruct (m w). Qed.

Lemma keeps_with_browser {A} b (m : M (Browser * World) A) :
  keeps R snd m -> keeps R id (with_browser b m).
Proof.
  intros Hm w. unfold with_browser. specialize (Hm (b, w)).
  by destruct (m (b, w)) as [r [b' w']].
Qed.

Lemma keeps_checked_request env prefix req :
  keeps R id (try_except
                (r <~ send env req;; _ <~ raise_for_status r;; ret r)
                (on_RequestException prefix)).
Proof.
  apply keeps_try_except; try assumption.
  - apply keeps_bind; try assumption; [apply keeps_send|intros r].
    apply keeps_bind; try assumption; [by apply keeps_raise_for_status|intros _].
    by apply keeps_ret.
  - intros e handler. by apply keeps_on_RequestException.
Qed.

Lemma keeps_Browser_init env location : keeps R id (Browser_init env location).
Proof.
  unfold Browser_init. apply keeps_try_except; try assumption.
  - apply keeps_bind; try assumption; [apply keeps_send|intros r].
    apply keeps_bind; try assumption; [by apply keeps_raise_for_status|intros _].
    by apply keeps_ret.
  - intros e handler. by apply keeps_on_RequestException.
Qed.

Lemma keeps_fill_inputs rt form items : keeps R snd (fill_inputs rt form items).
Proof.
  intros [b w]. destruct (fill_inputs_frame rt form items b w) as (t & -> & _).
  apply R_refl.
Qed.

Lemma keeps_submit_form rt env form_selector input_dict :
  keeps R snd (Browser_submit_form rt env form_selector input_dict).
Proof.
  unfold Browser_submit_form. apply keeps_bind; try assumption.
  { apply keeps_try_except; try assumption.
    - apply keeps_bind; try assumption; [by intros [b w]|intros page].
      intros [b w]. unfold first_item. case_match; apply R_refl.
    - intros e handler. destruct e; try done. intros [= <-]. by apply keeps_raise. }
  intros form. apply keeps_bind; try assumption; [apply keeps_fill_inputs|intros _].
  apply keeps_try_except; try assumption.
  - apply keeps_bind; try assumption; [by intros [b w]|intros page].
    apply keeps_bind; try assumption; [apply keeps_lift, keeps_send|intros page'].
    apply keeps_bind; try assumption; [by intros [b w]|intros _].
    by apply keeps_raise_for_status.
  - intros e handler. by apply keeps_on_RequestException.
Qed.

Lemma keeps_get_authorization_code rt env credentials_prompt :
  keeps R id (_get_authorization_code rt env credentials_prompt).
Proof.
  unfold _get_authorization_code.
  apply keeps_bind; try assumption; [apply keeps_Browser_init|intros b].
  apply keeps_with_browser.
  apply keeps_bind; try assumption; [apply keeps_lift; intros w; apply R_log|intros email].
  apply keeps_bind; try assumption; [apply keeps_submit_form|intros _].
  apply keeps_bind; try assumption; [apply keeps_lift; intros w; apply R_log|intros password].
  apply keeps_bind; try assumption; [apply keeps_submit_form|intros _].
  apply keeps_bind; try assumption; [by intros [b' w]|intros has_verification].
  apply keeps_bind; try assumption.
  { destruct has_verification; [|by apply keeps_ret].
    apply keeps_bind; try assumption; [apply keeps_lift; intros w; apply R_log|intros ?].
    apply keeps_submit_form. }
  intros _. apply keeps_try_except; try assumption.
  - intros [b' w]. unfold Browser_get_cookie. case_match; apply R_refl.
  - intros e handler. destruct e; try done. intros [= <-]. by apply keeps_raise.
Qed.

Lemma keeps_make_token_request rt env data : keeps R id (_make_token_request rt env data).
Proof.
  unfold _make_token_request. apply keeps_try_except_else; try assumption.
  - apply keeps_bind; try assumption; [apply keeps_send|intros r].
    apply keeps_bind; try assumption; [by apply keeps_raise_for_status|intros _].
    by apply keeps_ret.
  - intros e handler. by apply keeps_on_RequestException.
  - intros r. apply keeps_bind; try assumption.
    { intros w. unfold Response_json. case_match; apply R_refl. }
    intros res. apply keeps_bind; try assumption; [by apply keeps_py_contains|intros has_error].
    destruct has_error; [|by apply keeps_ret].
    apply keeps_bind; try assumption; [by apply keeps_py_getitem|intros error].
    by apply keeps_raise.
Qed.

Lemma keeps_get_session_cookies rt env access_token :
  keeps R id (_get_session_cookies rt env access_token).
Proof.
  unfold _get_session_cookies.
  apply keeps_bind; try assumption; [apply keeps_checked_request|intros r].
  apply keeps_bind; try assumption; [apply keeps_checked_request|intros _].
  intros w. case_bool_decide; apply R_refl.
Qed.

Lemma keeps_refresh_token_path rt env self : keeps R id (refresh_token_path rt env self).
Proof.
  unfold refresh_token_path. apply keeps_bind; try assumption.
  { intros w. unfold RefreshTokenCache_get. repeat case_match; apply R_log. }
  intros [t|]; [|by apply keeps_raise].
  unfold _auth_with_refresh_token.
  apply keeps_bind; try assumption; [apply keeps_make_token_request|intros res].
  by apply keeps_py_getitem.
Qed.

(** All of [get_auth] but the call of [RefreshTokenCache.set]. *)
Lemma keeps_get_auth rt env credentials_prompt self :
  (forall token, keeps R id (RefreshTokenCache_set env self token)) ->
  forall w, R (with_session (fresh_session rt) w)
              (snd (get_auth rt env credentials_prompt self w)).
Proof.
  intros Hset w.
  assert (H : keeps R id
    (access_token <~ try_except
                       (refresh_token_path rt env self)
                       (fun e => match e with
                                 | GoogleAuthError _ =>
                                     Some (credential_path rt env credentials_prompt self)
                                 | _ => None
                                 end);;
     _get_session_cookies rt env access_token)).
  { apply keeps_bind; try assumption; [|intros a; apply keeps_get_session_cookies].
    apply keeps_try_except; try assumption; [apply keeps_refresh_token_path|].
    intros e handler. destruct e; try done. intros [= <-].
    unfold credential_path.
    apply keeps_bind; try assumption; [apply keeps_get_authorization_code|intros code].
    apply keeps_bind; try assumption.
    { unfold _auth_with_code.
      apply keeps_bind; try assumption; [apply keeps_make_token_request|intros res].
      apply keeps_bind; try assumption; [by apply keeps_py_getitem|intros a].
      apply keeps_bind; try assumption; [by apply keeps_py_getitem|intros r].
      by apply keeps_ret. }
    intros [a r]. apply keeps_bind; try assumption; [apply Hset|intros _; by apply keeps_ret]. }
  exact (H (with_session (fresh_session rt) w)).
Qed.

End KeepsWorld.

(** X6: [get_auth] works on a session of its own.  The session that the
    world held before has no influence on the run, and the session that it
    leaves, whatever the outcome, has the user agent as its only header. *)
Theorem get_auth_session_of_its_own rt env credentials_prompt self w :
  (forall s, get_auth rt env credentials_prompt self (with_session s w)
             = get_auth rt env credentials_prompt self w) /\
  headers (session (snd (get_auth rt env credentials_prompt self w)))
    = [("user-agent", USER_AGENT rt)].
Proof.
  split; [done|].
  apply (keeps_get_auth same_headers); try done.
  - intros w1 w2 w3 H1 H2. unfold same_headers in *. congruence.
  - intros token w0. unfold RefreshTokenCache_set. by repeat case_match.
Qed.



(** X8: when the cached refresh token yields an access token, [get_auth]
    writes nothing: the files, the cache file included, are as they were,
    and [RefreshTokenCache.set] is not called. *)
Theorem get_auth_refresh_path_writes_nothing
    rt env credentials_prompt self w access_token w1 :
  refresh_token_path rt env self (with_session (fresh_session rt) w) = (Ok access_token, w1) ->
  files (snd (get_auth rt env credentials_prompt self w)) = files w /\
  exists evs,
    trace (snd (get_auth rt env credentials_prompt self w)) = trace w ++ evs /\
    count is_cache_set evs = 0.
Proof.
  intros Hpath. rewrite get_auth_cases, Hpath. split.
  - transitivity (files w1).
    + apply (keeps_get_session_cookies same_files); try done.
      intros a b c H1 H2. unfold same_files in *. congruence.
    + pose proof (keeps_refresh_token_path same_files) as Hk.
      specialize (Hk (fun _ => eq_refl)).
      specialize (Hk (fun a b c (H1 : same_files a b) (H2 : same_files b c) =>
                        eq_trans H2 H1)).
      specialize (Hk (fun _ _ => eq_refl)).
      specialize (Hk (fun _ _ _ => eq_refl) rt env self (with_session (fresh_session rt) w)).
      unfold id in Hk. rewrite Hpath in Hk. exact Hk.
  - pose proof (refresh_token_path_adds rt env self (with_session (fresh_session rt) w))
      as (evs0 & Ht0 & Hevs0).
    rewrite Hpath in Ht0. cbn [snd trace with_session] in Ht0.
    pose proof (get_session_cookies_adds rt env access_token w1) as (evs1 & Ht1 & Hevs1).
    exists (evs0 ++ evs1). split; [by rewrite Ht1, Ht0, app_assoc|].
    rewrite count_app.
    destruct (refresh_events_counts _ Hevs0) as (_ & _ & _ & _ & ->).
    by destruct (session_gets_counts _ Hevs1) as (_ & _ & _ & _ & ->).
Qed.

Lemma get_auth_refresh_path_writes_nothing_witness :
  files (snd (get_auth Run.rt Run.env_refresh_ok Run.prompt Run.cache
                (Run.world {[ "refresh_token.txt" := "abc" ]})))
    = files (Run.world {[ "refresh_token.txt" := "abc" ]}).
Proof.
  refine (proj1 (get_auth_refresh_path_writes_nothing Run.rt Run.env_refresh_ok Run.prompt
                   Run.cache (Run.world {[ "refresh_token.txt" := "abc" ]}) (JStr "T1") _ _)).
  vm_compute. reflexivity.
Defined.

(** ** The browser, continued *)



Lemma subtree_app p q t :
  subtree (p ++ q) t = match subtree p t with Some t' => subtree q t' | None => None end.
Proof.
  revert t. induction p as [|i p IH]; intros t; [done|].
  simpl. destruct (tag_children t !! i); [apply IH|done].
Qed.




Lemma dict_get_set_ne key key' value d :
  key' <> key -> dict_get key' (dict_set key value d) = dict_get key' d.
Proof.
  intros Hne. induction d as [|[k v] d IH]; simpl.
  - destruct (String.eqb key key') eqn:Hk; [|done].
    apply String.eqb_eq in Hk. congruence.
  - destruct (String.eqb k key) eqn:Hk; simpl.
    + apply String.eqb_eq in Hk as ->.
      destruct (String.eqb key key') eqn:Hk'; [|done].
      apply String.eqb_eq in Hk'. congruence.
    + destruct (String.eqb k key'); [done|exact IH].
Qed.



(** X10: the constructor of [Browser] sends one request for the page.  It
    returns a browser on the answer only when the answer is not an HTTP
    error; every failure, of the transport or of the status, is a
    [GoogleAuthError] that starts with [Failed to load form]. *)
Theorem Browser_init_outcome env location w :
  trace (snd (Browser_init env location w)) = trace w ++ [EvRequest (BrowserGet location)] /\
  match fst (Browser_init env location w) with
  | Ok b =>
      http env (trace w) (session w) (BrowserGet location) = Reply (_page b) /\
      is_http_error (_page b) = false
  | Raise e => exists msg, e = GoogleAuthError ("Failed to load form: " ++ msg)
  end.
Proof.
  split; [apply Browser_init_trace|].
  unfold Browser_init, try_except, try_except_else, bind, send.
  destruct (http env (trace w) (session w) (BrowserGet location)) as [msg|r]; simpl.
  - by exists msg.
  - unfold raise_for_status. destruct (is_http_error r) eqn:Hr; simpl; [|done].
    by eexists.
Qed.

(** X11: when [has_form] answers [False] for a selector, [submit_form] with
    that selector raises the [GoogleAuthError] that names it, and changes
    neither the page nor the world: nothing is sent. *)
Theorem submit_form_missing_form rt env form_selector input_dict b w :
  fst (Browser_has_form rt form_selector (b, w)) = Ok false ->
  Browser_submit_form rt env form_selector input_dict (b, w)
    = (Raise (GoogleAuthError
                ("Failed to find form " ++ repr rt (JStr form_selector) ++ " in page")),
       (b, w)).
Proof.
  unfold Browser_has_form, bind, get_page, ret. simpl. intros [= Hlen].
  unfold Browser_submit_form.
  unfold bind at 1. unfold try_except, try_except_else, bind at 1, get_page.
  destruct (select rt form_selector (soup (_page b))); [done|].
  simpl in Hlen. discriminate.
Qed.

Lemma submit_form_missing_form_witness :
  fst (Browser_submit_form Run.rt Run.env_code_ok VERIFICATION_FORM_SELECTOR
         [(VERIFICATION_CODE_SELECTOR, "000000")]
         ({| _page := Run.email_page |}, Run.world ∅))
    = Raise (GoogleAuthError "Failed to find form '#challenge' in page").
Proof.
  refine (f_equal fst (submit_form_missing_form Run.rt Run.env_code_ok
            VERIFICATION_FORM_SELECTOR [(VERIFICATION_CODE_SELECTOR, "000000")]
            {| _page := Run.email_page |} (Run.world ∅) _)).
  vm_compute. reflexivity.
Defined.

(** X12: when the form and all fields are found and the submission is
    answered, the browser moves to the answer, also when the answer is an
    HTTP error: [submit_form] then raises [GoogleAuthError] and the current
    page is the error page. *)
Theorem submit_form_answered rt env form_selector input_dict b w form others b1 r :
  select rt form_selector (soup (_page b)) = form :: others ->
  fill_inputs rt form input_dict (b, w) = (Ok tt, (b1, w)) ->
  http env (trace w) (session w)
       (BrowserSubmit (default (soup (_page b1)) (subtree form (soup (_page b1))))
                      (url (_page b1))) = Reply r ->
  Browser_submit_form rt env form_selector input_dict (b, w)
    = (if is_http_error r
       then Raise (GoogleAuthError ("Failed to submit form: " ++ http_error_msg r))
       else Ok tt,
       ({| _page := r |},
        received (BrowserSubmit (default (soup (_page b1)) (subtree form (soup (_page b1))))
                                (url (_page b1))) r w)).
Proof.
  intros Hform Hfill Hreply. unfold Browser_submit_form.
  unfold bind at 1. unfold try_except, try_except_else, bind at 1, get_page.
  destruct b as [page]. cbn [_page] in *. rewrite Hform. simpl.
  unfold bind at 1. rewrite Hfill.
  unfold try_except_else, bind, lift, get_page, set_page. destruct b1 as [page1].
  cbn [_page] in *. rewrite (send_reply _ _ _ _ Hreply).
  unfold raise_for_status. by destruct (is_http_error r).
Qed.

(** X13: when the submission cannot be delivered, [submit_form] raises a
    [GoogleAuthError] with the message of the transport, and the browser
    stays on its page, in which the fields have been filled. *)
Theorem submit_form_unreachable rt env form_selector input_dict b w form others b1 msg :
  select rt form_selector (soup (_page b)) = form :: others ->
  fill_inputs rt form input_dict (b, w) = (Ok tt, (b1, w)) ->
  http env (trace w) (session w)
       (BrowserSubmit (default (soup (_page b1)) (subtree form (soup (_page b1))))
                      (url (_page b1))) = ConnectionError msg ->
  Browser_submit_form rt env form_selector input_dict (b, w)
    = (Raise (GoogleAuthError ("Failed to submit form: " ++ msg)),
       (b1,
        log (EvRequest (BrowserSubmit
                          (default (soup (_page b1)) (subtree form (soup (_page b1))))
                          (url (_page b1)))) w)).
Proof.
  intros Hform Hfill Hreply. unfold Browser_submit_form.
  unfold bind at 1. unfold try_except, try_except_else, bind at 1, get_page.
  destruct b as [page]. cbn [_page] in *. rewrite Hform. simpl.
  unfold bind at 1. rewrite Hfill.
  unfold try_except_else, bind, lift, get_page, set_page. destruct b1 as [page1].
  cbn [_page] in *. unfold send. by rewrite Hreply.
Qed.

Lemma submit_form_answered_witness :
  Browser_submit_form Run.rt Faults.env_submit_forbidden FORM_SELECTOR
    [(EMAIL_SELECTOR, "user@x.com")] ({| _page := Run.email_page |}, Run.world ∅)
  = (Raise (GoogleAuthError
       "Failed to submit form: 403 Client Error: Forbidden for url: https://accounts.google.com/ServiceLogin"),
     ({| _page := Faults.forbidden |},
      received
        (BrowserSubmit
           (mkTag "form" [("id", "gaia_loginform")]
              [mkTag "input" [("id", "Email"); ("value", "user@x.com")] []])
           Run.login_url)
        Faults.forbidden (Run.world ∅))).
Proof.
  refine (submit_form_answered Run.rt Faults.env_submit_forbidden FORM_SELECTOR
            [(EMAIL_SELECTOR, "user@x.com")] {| _page := Run.email_page |} (Run.world ∅)
            [0; 0; 0] []
            {| _page := with_soup
                 (Run.document
                    [mkTag "form" [("id", "gaia_loginform")]
                       [mkTag "input" [("id", "Email"); ("value", "user@x.com")] []]])
                 Run.email_page |}
            Faults.forbidden _ _ _);
    vm_compute; reflexivity.
Defined.

Lemma submit_form_unreachable_witness :
  fst (Browser_submit_form Run.rt Faults.env_submit_unreachable FORM_SELECTOR
         [(EMAIL_SELECTOR, "user@x.com")] ({| _page := Run.email_page |}, Run.world ∅))
  = Raise (GoogleAuthError "Failed to submit form: connection reset").
Proof.
  refine (f_equal fst
            (submit_form_unreachable Run.rt Faults.env_submit_unreachable FORM_SELECTOR
               [(EMAIL_SELECTOR, "user@x.com")] {| _page := Run.email_page |} (Run.world ∅)
               [0; 0; 0] []
               {| _page := with_soup
                    (Run.document
                       [mkTag "form" [("id", "gaia_loginform")]
                          [mkTag "input" [("id", "Email"); ("value", "user@x.com")] []]])
                    Run.email_page |}
               "connection reset" _ _ _));
    vm_compute; reflexivity.
Defined.

(** ** The login, continued *)

(** X14: the code that [_get_authorization_code] returns is the value of
    the cookie [oauth_code] in the jar of the session at that moment. *)
Theorem get_authorization_code_is_cookie rt env credentials_prompt w code w' :
  _get_authorization_code rt env credentials_prompt w = (Ok code, w') ->
  jar_getitem "oauth_code" (cookies (session w')) = Some code.
Proof.
  intros H. unfold _get_authorization_code in H. unfold bind at 1 in H.
  destruct (Browser_init env OAUTH2_LOGIN_URL w) as [[b|e] w0]; [|done].
  unfold with_browser in H.
  unfold bind at 1, lift at 1, get_email at 1 in H. unfold bind at 1 in H.
  destruct (Browser_submit_form rt env FORM_SELECTOR _ (b, log EvGetEmail w0))
    as [[[]|e] [b1 w1]]; [|done].
  unfold bind at 1, lift at 1, get_password at 1 in H. unfold bind at 1 in H.
  destruct (Browser_submit_form rt env FORM_SELECTOR _ (b1, log EvGetPassword w1))
    as [[[]|e] [b2 w2]]; [|done].
  unfold bind at 1, Browser_has_form at 1, bind at 1, get_page at 1, ret at 1 in H.
  destruct (0 <? length (select rt VERIFICATION_FORM_SELECTOR (soup (_page b2)))).
  - unfold bind at 1, bind at 1, lift at 1, get_verification_code at 1 in H.
    destruct (Browser_submit_form rt env VERIFICATION_FORM_SELECTOR _
                (b2, log EvGetVerificationCode w2)) as [[[]|e] [b3 w3]]; [|done].
    unfold try_except, try_except_else, Browser_get_cookie in H.
    destruct (jar_getitem "oauth_code" (cookies (session w3))) eqn:Hc; [|done].
    by injection H as -> <-.
  - unfold bind at 1, ret at 1 in H.
    unfold try_except, try_except_else, Browser_get_cookie in H.
    destruct (jar_getitem "oauth_code" (cookies (session w2))) eqn:Hc; [|done].
    by injection H as -> <-.
Qed.

Lemma get_authorization_code_is_cookie_witness :
  jar_getitem "oauth_code"
    (cookies (session (snd (_get_authorization_code Run.rt Run.env_code_ok Run.prompt
                              (Run.world ∅))))) = Some "code123".
Proof.
  refine (get_authorization_code_is_cookie Run.rt Run.env_code_ok Run.prompt
            (Run.world ∅) "code123" _ _).
  vm_compute. reflexivity.
Defined.

(** X15: when the login page cannot be loaded, [_get_authorization_code]
    fails with the error of the constructor of [Browser] after that one
    request: the credential source is not called. *)
Theorem get_authorization_code_without_login_page rt env credentials_prompt w e :
  fst (Browser_init env OAUTH2_LOGIN_URL w) = Raise e ->
  fst (_get_authorization_code rt env credentials_prompt w) = Raise e /\
  trace (snd (_get_authorization_code rt env credentials_prompt w))
    = trace w ++ [EvRequest (BrowserGet OAUTH2_LOGIN_URL)].
Proof.
  intros H. unfold _get_authorization_code, bind.
  pose proof (Browser_init_trace env OAUTH2_LOGIN_URL w) as Ht.
  destruct (Browser_init env OAUTH2_LOGIN_URL w) as [[b|e0] w0]; [done|].
  simpl in *. by injection H as ->.
Qed.

Lemma get_authorization_code_without_login_page_witness :
  trace (snd (_get_authorization_code Run.rt Run.env_offline Run.prompt (Run.world ∅)))
    = [] ++ [EvRequest (BrowserGet OAUTH2_LOGIN_URL)].
Proof.
  refine (proj2 (get_authorization_code_without_login_page Run.rt Run.env_offline
                   Run.prompt (Run.world ∅) _ _)).
  vm_compute. reflexivity.
Defined.

(** X16: a login that returns the authorization code has made these calls,
    in this order: the request for the login page, [get_email], the
    submission of the email, [get_password], the submission of the
    password, and then either nothing or [get_verification_code] and the
    submission of the code. *)
Theorem get_authorization_code_order rt env credentials_prompt w code w' :
  _get_authorization_code rt env credentials_prompt w = (Ok code, w') ->
  exists f1 u1 f2 u2 tail,
    trace w' = trace w ++
      [ EvRequest (BrowserGet OAUTH2_LOGIN_URL);
        EvGetEmail; EvRequest (BrowserSubmit f1 u1);
        EvGetPassword; EvRequest (BrowserSubmit f2 u2) ] ++ tail /\
    (tail = [] \/
     exists f3 u3, tail = [EvGetVerificationCode; EvRequest (BrowserSubmit f3 u3)]).
Proof.
  intros H.
  destruct (get_authorization_code_ok_trace _ _ _ _ _ _ H)
    as (evs & Ht & f1 & u1 & f2 & u2 & tail & -> & Htail).
  exists f1, u1, f2, u2, tail. by split.
Qed.

Lemma get_authorization_code_order_witness :
  exists f1 u1 f2 u2 tail,
    trace (snd (_get_authorization_code Run.rt Run.env_code_ok Run.prompt (Run.world ∅)))
    = [] ++
      [ EvRequest (BrowserGet OAUTH2_LOGIN_URL);
        EvGetEmail; EvRequest (BrowserSubmit f1 u1);
        EvGetPassword; EvRequest (BrowserSubmit f2 u2) ] ++ tail /\
    (tail = [] \/
     exists f3 u3, tail = [EvGetVerificationCode; EvRequest (BrowserSubmit f3 u3)]).
Proof.
  refine (get_authorization_code_order Run.rt Run.env_code_ok Run.prompt
            (Run.world ∅) "code123" _ _).
  vm_compute. reflexivity.
Defined.

(** ** Session cookies, continued *)

(** Both [try] blocks of [_get_session_cookies], by the outcome of the
    request. *)
Lemma checked_request_outcome env prefix req w :
  try_except
    (r <~ send env req;; _ <~ raise_for_status r;; ret r)
    (on_RequestException prefix) w
  = match http env (trace w) (session w) req with
    | ConnectionError msg =>
        (Raise (GoogleAuthError (prefix ++ msg)), log (EvRequest req) w)
    | Reply r =>
        (if is_http_error r
         then Raise (GoogleAuthError (prefix ++ http_error_msg r))
         else Ok r,
         received req r w)
    end.
Proof.
  unfold try_except, try_except_else, bind, send.
  destruct (http env (trace w) (session w) req) as [msg|r]; [done|].
  unfold raise_for_status. by destruct (is_http_error r).
Qed.

Lemma get_session_cookies_inversion rt env access_token w cookie_map w' :
  _get_session_cookies rt env access_token w = (Ok cookie_map, w') ->
  exists r1 r2,
    let req1 := SessionGet OAUTH_LOGIN_URL (bearer rt access_token) in
    let req2 := SessionGet (MERGE_SESSION_URL (text r1)) (bearer rt access_token) in
    let w1 := received req1 r1 w in
    http env (trace w) (session w) req1 = Reply r1 /\
    is_http_error r1 = false /\
    http env (trace w1) (session w1) req2 = Reply r2 /\
    is_http_error r2 = false /\
    w' = received req2 r2 w1 /\
    cookie_map = get_dict ".google.com" (cookies (session w')).
Proof.
  unfold _get_session_cookies. unfold bind at 1. unfold oauth_login_request.
  rewrite checked_request_outcome.
  destruct (http env (trace w) (session w) _) as [msg|r1] eqn:H1; [done|].
  destruct (is_http_error r1) eqn:Hok1; [done|].
  unfold bind at 1. unfold merge_session_request.
  rewrite checked_request_outcome.
  destruct (http env _ _ (SessionGet (MERGE_SESSION_URL (text r1)) _)) as [msg|r2] eqn:H2;
    [done|].
  destruct (is_http_error r2) eqn:Hok2; [done|].
  case_bool_decide; [done|]. intros [= <- <-].
  by exists r1, r2.
Qed.


(** X17: a cookie map that [_get_session_cookies] returns comes from two
    answered calls that carry the bearer header of the access token, the
    second to the URL that ends with the body of the first answer; it is
    the map of the cookies that the jar then holds for [.google.com]. *)
Theorem get_session_cookies_returns rt env access_token w cookie_map w' :
  _get_session_cookies rt env access_token w = (Ok cookie_map, w') ->
  exists r1 r2,
    let req1 := SessionGet OAUTH_LOGIN_URL (bearer rt access_token) in
    let req2 := SessionGet (MERGE_SESSION_URL (text r1)) (bearer rt access_token) in
    let w1 := received req1 r1 w in
    http env (trace w) (session w) req1 = Reply r1 /\
    is_http_error r1 = false /\
    http env (trace w1) (session w1) req2 = Reply r2 /\
    is_http_error r2 = false /\
    w' = received req2 r2 w1 /\
    cookie_map = get_dict ".google.com" (cookies (session w')).
Proof. apply get_session_cookies_inversion. Qed.

Lemma get_session_cookies_returns_witness :
  exists r1 r2,
    snd (_get_session_cookies Run.rt Run.env_refresh_ok (JStr "T1") (Run.world ∅))
      = received (SessionGet (MERGE_SESSION_URL (text r1)) (bearer Run.rt (JStr "T1"))) r2
          (received (SessionGet OAUTH_LOGIN_URL (bearer Run.rt (JStr "T1"))) r1
             (Run.world ∅)).
Proof.
  edestruct (get_session_cookies_returns Run.rt Run.env_refresh_ok (JStr "T1") (Run.world ∅))
    as (r1 & r2 & _ & _ & _ & _ & Hw & _).
  - vm_compute. reflexivity.
  - exists r1, r2. exact Hw.
Defined.

(** X18: when the first call fails, [_get_session_cookies] raises a
    [GoogleAuthError] that names [OAuthLogin] and carries the message of the
    failure, and the second call is not made. *)
Theorem get_session_cookies_first_call_fails rt env access_token w msg :
  failure_message
    (http env (trace w) (session w) (SessionGet OAUTH_LOGIN_URL (bearer rt access_token)))
    = Some msg ->
  fst (_get_session_cookies rt env access_token w)
    = Raise (GoogleAuthError ("OAuthLogin request failed: " ++ msg)) /\
  trace (snd (_get_session_cookies rt env access_token w))
    = trace w ++ [EvRequest (SessionGet OAUTH_LOGIN_URL (bearer rt access_token))].
Proof.
  unfold failure_message, _get_session_cookies. unfold bind at 1, bind at 2.
  unfold oauth_login_request. rewrite checked_request_outcome.
  destruct (http env (trace w) (session w) _) as [msg0|r1].
  - by intros [= ->].
  - destruct (is_http_error r1); [|done]. by intros [= ->].
Qed.

Lemma get_session_cookies_first_call_fails_witness :
  fst (_get_session_cookies Run.rt Faults.env_oauth_login_denied (JStr "T1") (Run.world ∅))
    = Raise (GoogleAuthError
        "OAuthLogin request failed: 401 Client Error: Unauthorized for url: https://accounts.google.com/accounts/OAuthLogin?source=hangups&issueuberauth=1").
Proof.
  refine (proj1 (get_session_cookies_first_call_fails Run.rt Faults.env_oauth_login_denied
                   (JStr "T1") (Run.world ∅) _ _)).
  vm_compute. reflexivity.
Defined.

(** X19: when the first call succeeds and the second fails,
    [_get_session_cookies] raises a [GoogleAuthError] that names
    [MergeSession] and carries the message of the failure. *)
Theorem get_session_cookies_second_call_fails rt env access_token w r1 msg :
  let req1 := SessionGet OAUTH_LOGIN_URL (bearer rt access_token) in
  let req2 := SessionGet (MERGE_SESSION_URL (text r1)) (bearer rt access_token) in
  let w1 := received req1 r1 w in
  http env (trace w) (session w) req1 = Reply r1 ->
  is_http_error r1 = false ->
  failure_message (http env (trace w1) (session w1) req2) = Some msg ->
  fst (_get_session_cookies rt env access_token w)
    = Raise (GoogleAuthError ("MergeSession request failed: " ++ msg)).
Proof.
  intros req1 req2 w1 H1 Hok1.
  unfold failure_message, _get_session_cookies. unfold bind at 1.
  unfold oauth_login_request. rewrite checked_request_outcome.
  fold req1. rewrite H1, Hok1. unfold bind at 1.
  unfold merge_session_request. rewrite checked_request_outcome.
  fold req2 w1.
  destruct (http env (trace w1) (session w1) req2) as [msg0|r2].
  - by intros [= ->].
  - destruct (is_http_error r2); [|done]. by intros [= ->].
Qed.

Lemma get_session_cookies_second_call_fails_witness :
  fst (_get_session_cookies Run.rt Faults.env_merge_session_broken (JStr "T1") (Run.world ∅))
    = Raise (GoogleAuthError
        "MergeSession request failed: 500 Server Error: Internal Server Error for url: https://accounts.google.com/MergeSession?service=mail&continue=http://www.google.com&uberauth=uber").
Proof.
  refine (get_session_cookies_second_call_fails Run.rt Faults.env_merge_session_broken
            (JStr "T1") (Run.world ∅)
            (Run.with_text "uber" (Run.reply 200 "OK" OAUTH_LOGIN_URL)) _ _ _ _);
    vm_compute; reflexivity.
Defined.

(** The dict that [get_dict] builds: every entry is a cookie of the jar for
    the domain, and every cookie of the jar for the domain has an entry
    under its name. *)
Lemma get_dict_lookup domain jar name value :
  get_dict domain jar !! name = Some value ->
  exists c, c ∈ jar /\ cookie_name c = name /\ cookie_value c = value /\
            cookie_domain c = domain.
Proof.
  unfold get_dict.
  assert (H : forall acc : gmap string string,
    foldl (fun d c =>
             if String.eqb (cookie_domain c) domain
             then <[cookie_name c := cookie_value c]> d else d) acc jar !! name
      = Some value ->
    acc !! name = Some value \/
    exists c, c ∈ jar /\ cookie_name c = name /\ cookie_value c = value /\
              cookie_domain c = domain).
  { induction jar as [|c jar IH]; intros acc; simpl; [by left|].
    intros Hl. destruct (IH _ Hl) as [Hacc|(c' & Hin & ?)].
    - destruct (String.eqb (cookie_domain c) domain) eqn:Hd; [|by left].
      apply String.eqb_eq in Hd.
      destruct (decide (cookie_name c = name)) as [Hn|Hn].
      + rewrite Hn, lookup_insert_eq in Hacc. injection Hacc as <-.
        right. exists c. split; [apply list_elem_of_here|done].
      + rewrite lookup_insert_ne in Hacc by done. by left.
    - right. exists c'. split; [by apply list_elem_of_further|done]. }
  intros Hl. destruct (H ∅ Hl) as [Hempty|Hc]; [|done].
  by rewrite lookup_empty in Hempty.
Qed.

Lemma get_dict_has domain jar c :
  c ∈ jar -> cookie_domain c = domain -> is_Some (get_dict domain jar !! cookie_name c).
Proof.
  unfold get_dict. intros Hin Hd.
  assert (H : forall acc : gmap string string,
    (is_Some (acc !! cookie_name c) \/ c ∈ jar) ->
    is_Some (foldl (fun d c0 =>
             if String.eqb (cookie_domain c0) domain
             then <[cookie_name c0 := cookie_value c0]> d else d) acc jar
             !! cookie_name c)).
  { clear Hin. induction jar as [|c0 jar IH]; intros acc [Hacc|Hin]; simpl.
    - done.
    - by apply elem_of_nil in Hin.
    - apply IH. left. destruct (String.eqb (cookie_domain c0) domain); [|done].
      destruct (decide (cookie_name c0 = cookie_name c)) as [->|Hn].
      + rewrite lookup_insert_eq. by eexists.
      + by rewrite lookup_insert_ne.
    - apply elem_of_cons in Hin as [<-|Hin]; [|apply IH; by right].
      apply IH. left. subst domain. rewrite String.eqb_refl.
      rewrite lookup_insert_eq. by eexists. }
  apply H. by right.
Qed.

(** X20: what [get_auth] returns is never empty, holds under each name the
    value of a cookie that the session holds for the domain [.google.com],
    and has an entry for the name of every such cookie. *)
Theorem get_auth_returns_domain_cookies rt env credentials_prompt self w cookie_map w' :
  get_auth rt env credentials_prompt self w = (Ok cookie_map, w') ->
  cookie_map <> ∅ /\
  (forall name value, cookie_map !! name = Some value ->
     exists c, c ∈ cookies (session w') /\ cookie_name c = name /\
               cookie_value c = value /\ cookie_domain c = ".google.com") /\
  (forall c, c ∈ cookies (session w') -> cookie_domain c = ".google.com" ->
     is_Some (cookie_map !! cookie_name c)).
Proof.
  rewrite get_auth_cases. intros H.
  assert (Hc : exists a w1, _get_session_cookies rt env a w1 = (Ok cookie_map, w')).
  { destruct (refresh_token_path rt env self _) as [[a|e] w1]; [by eauto|].
    destruct e; try done.
    destruct (credential_path rt env credentials_prompt self w1) as [[a|e] w2]; [|done].
    by eauto. }
  destruct Hc as (a & w1 & Hc).
  destruct (get_session_cookies_inversion _ _ _ _ _ _ Hc)
    as (r1 & r2 & _ & _ & _ & _ & _ & ->).
  split; [|split].
  - unfold _get_session_cookies, bind in Hc.
    destruct (oauth_login_request _ _ _) as [[r|e] wa]; [|done].
    destruct (merge_session_request _ _ _ _) as [[r'|e] wb]; [|done].
    case_bool_decide; [done|]. by injection Hc as <- <-.
  - intros name value. apply get_dict_lookup.
  - intros c. apply get_dict_has.
Qed.

Lemma get_auth_returns_domain_cookies_witness :
  ({[ "SID" := "sid-value" ]} : gmap string string) <> ∅.
Proof.
  refine (proj1 (get_auth_returns_domain_cookies Run.rt Run.env_refresh_ok Run.prompt
                   Run.cache (Run.world {[ "refresh_token.txt" := "abc" ]})
                   {[ "SID" := "sid-value" ]} _ _)).
  vm_compute. reflexivity.
Defined.

(** ** Token requests, continued *)

(** X21: when the token request fails in the transport or is answered with
    an HTTP error, [_make_token_request] raises a [GoogleAuthError] with the
    message of that failure, whatever the body, after the one request. *)
Theorem make_token_request_fails rt env data w msg :
  failure_message
    (http env (trace w) (session w) (SessionPost OAUTH2_TOKEN_REQUEST_URL data)) = Some msg ->
  fst (_make_token_request rt env data w)
    = Raise (GoogleAuthError ("Token request failed: " ++ msg)) /\
  trace (snd (_make_token_request rt env data w))
    = trace w ++ [EvRequest (SessionPost OAUTH2_TOKEN_REQUEST_URL data)].
Proof.
  intros H. split; [|apply make_token_request_trace].
  unfold failure_message in H.
  unfold _make_token_request, try_except_else, bind, send.
  destruct (http env (trace w) (session w) _) as [msg0|r]; simpl.
  - by injection H as ->.
  - unfold raise_for_status. destruct (is_http_error r); [|done].
    by injection H as ->.
Qed.

Lemma make_token_request_fails_witness :
  fst (_make_token_request Run.rt Faults.env_token_unreachable
         (code_request_data "code123") (Run.world ∅))
    = Raise (GoogleAuthError "Token request failed: timed out").
Proof.
  refine (proj1 (make_token_request_fails Run.rt Faults.env_token_unreachable
                   (code_request_data "code123") (Run.world ∅) _ _)).
  vm_compute. reflexivity.
Defined.

(** X22: a token response whose status is not an HTTP error and whose body
    is not JSON makes [_make_token_request] raise the decoding error of
    [Response.json], which is not a [GoogleAuthError]: the call of [json]
    is in the [else] block, outside the [try]. *)
Theorem make_token_request_not_json rt env data w r :
  http env (trace w) (session w) (SessionPost OAUTH2_TOKEN_REQUEST_URL data) = Reply r ->
  is_http_error r = false ->
  body_json r = None ->
  _make_token_request rt env data w
    = (Raise JSONDecodeError, received (SessionPost OAUTH2_TOKEN_REQUEST_URL data) r w).
Proof.
  intros Hreply Hok Hjson.
  unfold _make_token_request, try_except_else, bind.
  rewrite (send_reply _ _ _ _ Hreply). unfold raise_for_status. rewrite Hok. simpl.
  unfold Response_json. by rewrite Hjson.
Qed.

Lemma make_token_request_not_json_witness :
  fst (_make_token_request Run.rt Faults.env_token_not_json
         (code_request_data "code123") (Run.world ∅)) = Raise JSONDecodeError.
Proof.
  refine (f_equal fst
            (make_token_request_not_json Run.rt Faults.env_token_not_json
               (code_request_data "code123") (Run.world ∅)
               (Run.reply 200 "OK" OAUTH2_TOKEN_REQUEST_URL) _ _ _));
    reflexivity.
Defined.

(** X23: when the refresh-token grant is answered, without HTTP error, by
    an object that has no [error] and has an [access_token],
    [_auth_with_refresh_token] returns that access token; the request
    carries the client id, the client secret, the grant type and the
    refresh token. *)
Theorem auth_with_refresh_token_returns rt env refresh_token w r o access_token :
  let req := SessionPost OAUTH2_TOKEN_REQUEST_URL
               [ ("client_id", OAUTH2_CLIENT_ID); ("client_secret", OAUTH2_CLIENT_SECRET);
                 ("grant_type", "refresh_token"); ("refresh_token", refresh_token) ] in
  http env (trace w) (session w) req = Reply r ->
  is_http_error r = false ->
  body_json r = Some (JDict o) ->
  o !! "error" = None ->
  o !! "access_token" = Some access_token ->
  _auth_with_refresh_token rt env refresh_token w = (Ok access_token, received req r w).
Proof.
  intros req Hreply Hok Hjson Herr Hkey. unfold _auth_with_refresh_token, bind.
  rewrite (make_token_request_returns _ _ _ _ _ _ Hreply Hok Hjson Herr).
  simpl. by rewrite Hkey.
Qed.

Lemma auth_with_refresh_token_returns_witness :
  fst (_auth_with_refresh_token Run.rt Run.env_refresh_ok "abc" (Run.world ∅))
    = Ok (JStr "T1").
Proof.
  refine (f_equal fst
            (auth_with_refresh_token_returns Run.rt Run.env_refresh_ok "abc" (Run.world ∅)
               (Run.with_json (JDict {[ "access_token" := JStr "T1" ]})
                  (Run.reply 200 "OK" OAUTH2_TOKEN_REQUEST_URL))
               {[ "access_token" := JStr "T1" ]} (JStr "T1") _ _ _ _ _));
    vm_compute; reflexivity.
Defined.

(** X24: when the authorization-code grant is answered, without HTTP
    error, by an object that has no [error] and has both tokens,
    [_auth_with_code] returns the pair of them; the request carries the
    code and the out-of-band redirect URI. *)
Theorem auth_with_code_returns rt env authorization_code w r o access_token refresh_token :
  let req := SessionPost OAUTH2_TOKEN_REQUEST_URL
               [ ("client_id", OAUTH2_CLIENT_ID); ("client_secret", OAUTH2_CLIENT_SECRET);
                 ("code", authorization_code); ("grant_type", "authorization_code");
                 ("redirect_uri", "urn:ietf:wg:oauth:2.0:oob") ] in
  http env (trace w) (session w) req = Reply r ->
  is_http_error r = false ->
  body_json r = Some (JDict o) ->
  o !! "error" = None ->
  o !! "access_token" = Some access_token ->
  o !! "refresh_token" = Some refresh_token ->
  _auth_with_code rt env authorization_code w
    = (Ok (access_token, refresh_token), received req r w).
Proof.
  intros req Hreply Hok Hjson Herr Ha Hr. unfold _auth_with_code, bind.
  rewrite (make_token_request_returns _ _ _ _ _ _ Hreply Hok Hjson Herr).
  simpl. rewrite Ha. simpl. by rewrite Hr.
Qed.

Lemma auth_with_code_returns_witness :
  fst (_auth_with_code Run.rt Run.env_code_ok "code123" (Run.world ∅))
    = Ok (JStr "T2", JStr "R2").
Proof.
  refine (f_equal fst
            (auth_with_code_returns Run.rt Run.env_code_ok "code123" (Run.world ∅)
               (Run.with_json
                  (JDict {[ "access_token" := JStr "T2"; "refresh_token" := JStr "R2" ]})
                  (Run.reply 200 "OK" OAUTH2_TOKEN_REQUEST_URL))
               {[ "access_token" := JStr "T2"; "refresh_token" := JStr "R2" ]}
               (JStr "T2") (JStr "R2") _ _ _ _ _ _));
    vm_compute; reflexivity.
Defined.

(** ** The token cache, continued *)





(** ** get_auth, continued *)




(** X28: when the code grant returns a refresh token that is not a string
    and the cache file can be opened, the credential path ends with the
    [TypeError] of [f.write], and the cache file is left empty: [open] has
    emptied it before the write fails. *)
Theorem credential_path_refresh_token_not_a_string
    rt env credentials_prompt self w code w2 access_token refresh_token w3 :
  _get_authorization_code rt env credentials_prompt w = (Ok code, w2) ->
  _auth_with_code rt env code w2 = (Ok (access_token, refresh_token), w3) ->
  (forall s, refresh_token <> JStr s) ->
  write_fault env (_filename self) = false ->
  (exists msg, fst (credential_path rt env credentials_prompt self w) = Raise (TypeError msg)) /\
  files (snd (credential_path rt env credentials_prompt self w)) !! _filename self = Some "".
Proof.
  intros Hcode Htok Hns Hw. unfold credential_path, bind.
  rewrite Hcode, Htok. unfold RefreshTokenCache_set. rewrite Hw.
  destruct refresh_token as [| | |s| |]; try (by destruct (Hns s));
    (split; [by eexists|simpl; apply lookup_insert_eq]).
Qed.

Lemma credential_path_refresh_token_not_a_string_witness :
  files (snd (credential_path Run.rt Faults.env_null_refresh_token Run.prompt Run.cache
                (Run.world {[ "refresh_token.txt" := "old" ]}))) !! "refresh_token.txt"
    = Some "".
Proof.
  refine (proj2 (credential_path_refresh_token_not_a_string
                   Run.rt Faults.env_null_refresh_token Run.prompt Run.cache
                   (Run.world {[ "refresh_token.txt" := "old" ]})
                   "code123" _ (JStr "T2") JNull _ _ _ _ _)).
  - vm_compute. reflexivity.
  - vm_compute. reflexivity.
  - intros s. discriminate.
  - reflexivity.
Defined.
